(** * text2solve: the question / answer / history flow of [app.py]

    A shallow embedding of the Streamlit script [src/app.py]: the answer
    generator ([generate_solution]), the history store
    ([save_qa_to_firestore], [get_past_qa_from_firestore]), the handler of
    the generate button, and the paginated history section.

    The hosted collaborators (Gemini, Firestore, the Streamlit caches) are
    not part of the script.  Every call the script makes to them is recorded
    as an [event]; what they answer is read from a [Remote] record. *)

From Stdlib Require Import ZArith String Ascii DecimalString.
From stdpp Require Import base option list gmap strings.

Local Open Scope string_scope.
Local Open Scope list_scope.
Local Open Scope Z_scope.

(** ** Python primitives used by the script *)

Module Py.

(** [str.isspace] on the characters a [string] holds (code points below
    256): TAB..CR, FS..US, space, NEL and NBSP. *)
Definition isspace (c : ascii) : bool :=
  let n := N_of_ascii c in
  (((9 <=? n) && (n <=? 13)) || ((28 <=? n) && (n <=? 32))
   || (n =? 133) || (n =? 160))%N.

Fixpoint lstrip (s : string) : string :=
  match s with
  | EmptyString => EmptyString
  | String c rest => if isspace c then lstrip rest else s
  end.

Definition rstrip (s : string) : string := String.rev (lstrip (String.rev s)).

(** [s.strip()] *)
Definition strip (s : string) : string := rstrip (lstrip s).

(** Truth value of a [str]: false exactly for the empty string. *)
Definition truthy (s : string) : bool :=
  match s with EmptyString => false | String _ _ => true end.

(** [s.startswith(p)] *)
Definition startswith (s p : string) : bool := String.prefix p s.

(** [s[:n]] for a [str] and [n >= 0]. *)
Definition str_upto (n : nat) (s : string) : string := String.substring 0 n s.

(** An index of a slice, brought into [0 .. len] the way Python does it:
    a negative index counts from the end. *)
Definition slice_index (len i : Z) : Z :=
  if i <? 0 then Z.max (i + len) 0 else Z.min i len.

(** [l[start:stop]] with integer bounds. *)
Definition slice {A} (l : list A) (start stop : Z) : list A :=
  let len := Z.of_nat (length l) in
  let lo := slice_index len start in
  let hi := slice_index len stop in
  take (Z.to_nat (hi - lo)) (drop (Z.to_nat lo) l).

(** [str(n)] for an [int]. *)
Definition str_int (n : Z) : string :=
  DecimalString.NilZero.string_of_int (Z.to_int n).

Definition nl : string := String (ascii_of_nat 10) EmptyString.
Definition dquote : string := String (ascii_of_nat 34) EmptyString.

End Py.

(** What a call that may raise gives back: its value, or the text of the
    exception ([str(e)]). *)
Inductive result (A : Type) : Type :=
| Returned (a : A)
| Raised (e : string).
Arguments Returned {A} a.
Arguments Raised {A} e.


(** ** Values, documents and events *)

(** The two methods of Python's [datetime] the script relies on.  The class
    belongs to the standard library, so it is an interface here. *)
Class Datetime (datetime : Type) := {
  isoformat : datetime → string;      (* [t.isoformat()] *)
  datetime_str : datetime → string    (* [str(t)] *)
}.

(** A field value of a document read from Firestore ([doc.to_dict()]):
    text, a native instant, or null.  These are the kinds the script tells
    apart ([isinstance(_, datetime)], truth value, slicing); numbers, maps
    and the other kinds Firestore can hold are not modelled. *)
Inductive value (datetime : Type) : Type :=
| VStr (s : string)
| VDatetime (t : datetime)
| VNone.
Arguments VStr {datetime} s.
Arguments VDatetime {datetime} t.
Arguments VNone {datetime}.

(** A field value of a document handed to [add]: text, an instant taken on
    the client, or the marker [firestore.SERVER_TIMESTAMP] that asks the
    server to fill in its own time. *)
Inductive wvalue (datetime : Type) : Type :=
| WStr (s : string)
| WDatetime (t : datetime)
| SERVER_TIMESTAMP.
Arguments WStr {datetime} s.
Arguments WDatetime {datetime} t.
Arguments SERVER_TIMESTAMP {datetime}.

Inductive level : Type := LvError | LvWarning | LvSuccess | LvInfo.
Inductive place : Type := Main | Sidebar.

(** The calls the script makes to its collaborators, in program order. *)
Inductive event (datetime : Type) : Type :=
| Message (p : place) (lv : level) (msg : string)
    (* [st.error], [st.warning], [st.success], [st.info], [st.sidebar.*] *)
| WriteText (msg : string)                     (* [st.write] *)
| Markdown (body : value datetime)             (* [st.markdown] *)
| Expander (label : string)                    (* [with st.expander(label)] *)
| GenerateContent (prompt : string)            (* [model.generate_content] *)
| CollectionAdd (doc : gmap string (wvalue datetime))
    (* [db.collection('q_and_a').add(doc)] *)
| QueryStream
    (* [db.collection('q_and_a').order_by('timestamp', DESCENDING).stream()] *).
Arguments Message {datetime} p lv msg.
Arguments WriteText {datetime} msg.
Arguments Markdown {datetime} body.
Arguments Expander {datetime} label.
Arguments GenerateContent {datetime} prompt.
Arguments CollectionAdd {datetime} doc.
Arguments QueryStream {datetime}.

(** The handles the hosted SDKs give out are opaque. *)
Inductive firestore_client : Type := FirestoreClient.
Inductive generative_model : Type := GenerativeModel (name : string).

(** ** Session state, caches and the world a run acts on *)

(** [st.session_state]: the three fields set at lines 159-164 and
    [history_page], which is absent until the history section first shows a
    non-empty list. *)
Record Session : Type := {
  current_question : string;
  current_solution : string;
  solution_generated : bool;
  history_page : option Z
}.

Definition initial_session : Session :=
  {| current_question := EmptyString;
     current_solution := EmptyString;
     solution_generated := false;
     history_page := None |}.

(** The page number of a session; a session that has not stored one yet is
    on page 1, the value line 227 stores. *)
Definition page_number (s : Session) : Z := default 1 (history_page s).

(** The process-wide memo tables, one slot per decorated function (none of
    the three takes an argument).  [init_firebase] is under
    [@st.cache_resource]; [get_gemini_api_key] and
    [get_past_qa_from_firestore] are under [@st.cache_data].  The five
    minutes an entry of the last one lives ([ttl=300]) are counted by the
    cache, outside a run: see [ttl_expiry]. *)
Record Caches (datetime : Type) : Type := {
  resource_init_firebase : option (option firestore_client * option bool);
  data_get_gemini_api_key : option (option string);
  data_get_past_qa_from_firestore : option (list (gmap string (value datetime)))
}.
Arguments resource_init_firebase {datetime} c.
Arguments data_get_gemini_api_key {datetime} c.
Arguments data_get_past_qa_from_firestore {datetime} c.

Definition empty_caches {datetime} : Caches datetime :=
  {| resource_init_firebase := None;
     data_get_gemini_api_key := None;
     data_get_past_qa_from_firestore := None |}.

Record World (datetime : Type) : Type := {
  session : Session;
  caches : Caches datetime;
  log : list (event datetime)
}.
Arguments session {datetime} w.
Arguments caches {datetime} w.
Arguments log {datetime} w.

(** The module-level names the functions of the script read. *)
Record Globals : Type := {
  db : option firestore_client;
  firebase_initialized : option bool;     (* [True], [False] or [None] *)
  GEMINI_API_KEY : option string;
  model : option generative_model
}.

(** What the hosted services answer during one run. *)
Record Remote (datetime : Type) : Type := {
  (* [genai.configure(api_key=k)] then [genai.GenerativeModel(...)] *)
  construct_model : string → result generative_model;
  (* [model.generate_content(prompt)] then [response.text] *)
  generate_content : string → result string;
  (* [db.collection('q_and_a').add(doc)] *)
  collection_add : gmap string (wvalue datetime) → result unit;
  (* the documents of the descending query, as [to_dict] gives them *)
  collection_stream : result (list (gmap string (value datetime)))
}.
Arguments construct_model {datetime} r.
Arguments generate_content {datetime} r.
Arguments collection_add {datetime} r.
Arguments collection_stream {datetime} r.

(** ** The monad of a script run

    A run threads the world and may be cut short: [st.rerun()] raises to
    leave the script, and so does an exception nobody catches. *)
Inductive interrupt : Type := RerunException | TypeError | AttributeError.

Inductive outcome (A : Type) : Type :=
| Done (a : A)
| Stop (i : interrupt).
Arguments Done {A} a.
Arguments Stop {A} i.

Definition App (datetime : Type) (A : Type) : Type :=
  World datetime → outcome A * World datetime.

#[global] Instance App_ret {datetime} : MRet (App datetime) :=
  λ A a w, (Done a, w).

#[global] Instance App_bind {datetime} : MBind (App datetime) :=
  λ A B k m w,
    match m w with
    | (Done a, w') => k a w'
    | (Stop i, w') => (Stop i, w')
    end.


(** What [st.secrets] does when asked for the key GEMINI_API_KEY. *)
Inductive secret_lookup : Type :=
| SecretValue (v : string)
| SecretKeyError
| SecretFailure (e : string).

(** The buttons of the page; a run sees at most one of them pressed. *)
Inductive button : Type := Generate | Previous | Next.

(** ** The script *)

Section Model.

Context `{Datetime datetime}.

Abbreviation Doc := (gmap string (value datetime)).
Abbreviation M := (App datetime).

(** *** Primitive steps *)

Definition emit (e : event datetime) : M unit :=
  λ w, (Done tt,
        {| session := session w; caches := caches w; log := log w ++ [e] |}).

Definition get_session : M Session := λ w, (Done (session w), w).

Definition put_session (s : Session) : M unit :=
  λ w, (Done tt, {| session := s; caches := caches w; log := log w |}).

Definition get_caches : M (Caches datetime) := λ w, (Done (caches w), w).

Definition put_caches (c : Caches datetime) : M unit :=
  λ w, (Done tt, {| session := session w; caches := c; log := log w |}).

Definition raise {A} (i : interrupt) : M A := λ w, (Stop i, w).

Definition st_error (msg : string) : M unit := emit (Message Main LvError msg).
Definition st_warning (msg : string) : M unit := emit (Message Main LvWarning msg).
Definition st_success (msg : string) : M unit := emit (Message Main LvSuccess msg).
Definition st_info (msg : string) : M unit := emit (Message Main LvInfo msg).
Definition st_write (msg : string) : M unit := emit (WriteText msg).
Definition st_markdown (body : value datetime) : M unit := emit (Markdown body).

(** [st.rerun()]: leaves the run at once; the script is then run again. *)
Definition st_rerun {A} : M A := raise RerunException.

(** [st.cache_data.clear()]: empties every [@st.cache_data] table.  The
    [@st.cache_resource] tables are a different store. *)
Definition st_cache_data_clear : M unit :=
  c ← get_caches;
  put_caches {| resource_init_firebase := resource_init_firebase c;
                data_get_gemini_api_key := None;
                data_get_past_qa_from_firestore := None |}.

(** The end of the five minutes of a history entry. *)
Definition ttl_expiry (c : Caches datetime) : Caches datetime :=
  {| resource_init_firebase := resource_init_firebase c;
     data_get_gemini_api_key := data_get_gemini_api_key c;
     data_get_past_qa_from_firestore := None |}.

Definition set_current_question (q : string) : M unit :=
  s ← get_session;
  put_session {| current_question := q;
                 current_solution := current_solution s;
                 solution_generated := solution_generated s;
                 history_page := history_page s |}.

Definition set_current_solution (t : string) : M unit :=
  s ← get_session;
  put_session {| current_question := current_question s;
                 current_solution := t;
                 solution_generated := solution_generated s;
                 history_page := history_page s |}.

Definition set_solution_generated (b : bool) : M unit :=
  s ← get_session;
  put_session {| current_question := current_question s;
                 current_solution := current_solution s;
                 solution_generated := b;
                 history_page := history_page s |}.

Definition set_history_page (p : Z) : M unit :=
  s ← get_session;
  put_session {| current_question := current_question s;
                 current_solution := current_solution s;
                 solution_generated := solution_generated s;
                 history_page := Some p |}.

(** Reading [st.session_state.history_page]. *)
Definition get_history_page : M Z :=
  s ← get_session;
  match history_page s with
  | Some p => mret p
  | None => raise AttributeError
  end.

(** [for x in l: body(x)] *)
Fixpoint for_each {A} (l : list A) (body : A → M unit) : M unit :=
  match l with
  | [] => mret tt
  | x :: rest => body x;; for_each rest body
  end.

(** *** Truth values and formatting *)

Definition present {A} (o : option A) : bool :=
  match o with Some _ => true | None => false end.

Definition truthy_flag (o : option bool) : bool :=
  match o with Some true => true | _ => false end.

Definition truthy_key (o : option string) : bool :=
  match o with Some k => Py.truthy k | None => false end.

Definition truthy_value (v : value datetime) : bool :=
  match v with
  | VStr s => Py.truthy s
  | VDatetime _ => true
  | VNone => false
  end.

(** How an f-string shows a value. *)
Definition format_value (v : value datetime) : string :=
  match v with
  | VStr s => s
  | VDatetime t => datetime_str t
  | VNone => "None"
  end.

Definition is_datetime (v : value datetime) : bool :=
  match v with VDatetime _ => true | _ => false end.

Definition is_text (v : value datetime) : bool :=
  match v with VStr _ => true | _ => false end.

(** *** Globals and services *)

Variable g : Globals.
Variable remote : Remote datetime.

Variable secrets_GEMINI_API_KEY : secret_lookup.

(** Lines 50-63, the body under [@st.cache_data]. *)
Definition get_gemini_api_key : M (option string) :=
  match secrets_GEMINI_API_KEY with
  | SecretValue api_key =>
      if negb (Py.truthy api_key) then
        st_error "GEMINI_API_KEY not found in Streamlit secrets. Please add it.";;
        mret None
      else mret (Some api_key)
  | SecretKeyError =>
      st_error "GEMINI_API_KEY not found in Streamlit secrets. Please add it.";;
      mret None
  | SecretFailure e =>
      st_error ("Error accessing Gemini API key: " +:+ e);;
      mret None
  end.

(** The decorated [get_gemini_api_key]: a hit gives the stored value, a miss
    runs the body and stores what it returns. *)
Definition get_gemini_api_key_cached : M (option string) :=
  c ← get_caches;
  match data_get_gemini_api_key c with
  | Some v => mret v
  | None =>
      v ← get_gemini_api_key;
      c' ← get_caches;
      put_caches {| resource_init_firebase := resource_init_firebase c';
                    data_get_gemini_api_key := Some v;
                    data_get_past_qa_from_firestore :=
                      data_get_past_qa_from_firestore c' |};;
      mret v
  end.

(** Lines 67-77: the module-level [model], from the key. *)
Definition configure_model (api_key : option string) : M (option generative_model) :=
  match api_key with
  | Some k =>
      if Py.truthy k then
        match construct_model remote k with
        | Returned m =>
            emit (Message Sidebar LvSuccess "Gemini API configured successfully!");;
            mret (Some m)
        | Raised e =>
            emit (Message Sidebar LvError ("Error configuring Gemini API: " +:+ e));;
            mret None
        end
      else
        emit (Message Sidebar LvWarning
                "Gemini API key not configured. Solution generation will not work.");;
        mret None
  | None =>
      emit (Message Sidebar LvWarning
              "Gemini API key not configured. Solution generation will not work.");;
      mret None
  end.

(** The decorated [init_firebase]: the pair it returned is kept for the
    life of the process. *)
Definition init_firebase_cached
    (init_firebase : M (option firestore_client * option bool)) :
    M (option firestore_client * option bool) :=
  c ← get_caches;
  match resource_init_firebase c with
  | Some v => mret v
  | None =>
      v ← init_firebase;
      c' ← get_caches;
      put_caches {| resource_init_firebase := Some v;
                    data_get_gemini_api_key := data_get_gemini_api_key c';
                    data_get_past_qa_from_firestore :=
                      data_get_past_qa_from_firestore c' |};;
      mret v
  end.

(** *** History store *)

(** [not firebase_initialized or not db] *)
Definition store_uninitialized : bool :=
  negb (truthy_flag (firebase_initialized g)) || negb (present (db g)).

(** The dictionary literal of lines 92-96. *)
Definition qa_document (question solution : string) : gmap string (wvalue datetime) :=
  <["question" := WStr question]>
    (<["solution" := WStr solution]>
       (<["timestamp" := SERVER_TIMESTAMP]> ∅)).

Definition add_to_collection (doc : gmap string (wvalue datetime)) : M (result unit) :=
  emit (CollectionAdd doc);;
  mret (collection_add remote doc).

Definition save_qa_to_firestore (question solution : string) : M bool :=
  if store_uninitialized then
    st_error "Firebase not initialized. Cannot save data.";;
    mret false
  else if negb (Py.truthy question) || negb (Py.truthy solution) then
    st_warning "Question or solution is empty. Nothing to save.";;
    mret false
  else
    r ← add_to_collection (qa_document question solution);
    match r with
    | Returned _ => mret true
    | Raised e =>
        st_error ("Error saving to Firestore: " +:+ e);;
        mret false
    end.

(** Lines 117-118: a native instant under ['timestamp'] becomes its ISO
    text; anything else is left as it is. *)
Definition normalize_timestamp (data : Doc) : Doc :=
  match data !! "timestamp" with
  | Some (VDatetime t) => <["timestamp" := VStr (isoformat t)]> data
  | _ => data
  end.

Definition stream_collection : M (result (list Doc)) :=
  emit QueryStream;;
  mret (collection_stream remote).

(** Lines 103-123, the body under [@st.cache_data(ttl=300)]. *)
Definition get_past_qa_from_firestore : M (list Doc) :=
  if store_uninitialized then
    st_error "Firebase not initialized. Cannot retrieve data.";;
    mret []
  else
    r ← stream_collection;
    match r with
    | Returned docs => mret (normalize_timestamp <$> docs)
    | Raised e =>
        st_error ("Error retrieving from Firestore: " +:+ e);;
        mret []
    end.

Definition get_past_qa_from_firestore_cached : M (list Doc) :=
  c ← get_caches;
  match data_get_past_qa_from_firestore c with
  | Some v => mret v
  | None =>
      v ← get_past_qa_from_firestore;
      c' ← get_caches;
      put_caches {| resource_init_firebase := resource_init_firebase c';
                    data_get_gemini_api_key := data_get_gemini_api_key c';
                    data_get_past_qa_from_firestore := Some v |};;
      mret v
  end.

(** *** Answer generator *)

Definition model_not_initialized : string :=
  "Error: Gemini model not initialized. Please check API key and configuration.".

Definition please_enter_a_question : string := "Please enter a question.".

(** The f-string of lines 134-143. *)
Definition prompt_for (question : string) : string :=
  Py.nl +:+ "    You are an expert math and physics tutor." +:+ Py.nl
  +:+ "    Provide a clear, step-by-step solution to the following question." +:+ Py.nl
  +:+ "    Explain each step thoroughly. If formulas are used, state them first." +:+ Py.nl
  +:+ "    Make the solution easy for a beginner to understand." +:+ Py.nl
  +:+ Py.nl
  +:+ "    Question: " +:+ Py.dquote +:+ question +:+ Py.dquote +:+ Py.nl
  +:+ Py.nl
  +:+ "    Solution:" +:+ Py.nl
  +:+ "    ".

(** The text a caught fault is turned into (line 149). *)
Definition failure_text (e : string) : string :=
  "Sorry, I couldn't generate a solution at this time. Error: " +:+ e.

Definition ask_model (prompt : string) : M (result string) :=
  emit (GenerateContent prompt);;
  mret (generate_content remote prompt).

Definition generate_solution (question : string) : M string :=
  if negb (present (model g)) then mret model_not_initialized
  else if negb (Py.truthy question) then mret please_enter_a_question
  else
    r ← ask_model (prompt_for question);
    match r with
    | Returned text => mret text
    | Raised e =>
        st_error ("Error generating solution with Gemini: " +:+ e);;
        mret (failure_text e)
    end.

(** *** Input section: the generate button (lines 176-200) *)

(** The literal of line 189. *)
Definition failure_sentinel : string := "Sorry, I couldn't generate a solution".

Definition on_generate (user_question : string) : M unit :=
  if negb (truthy_key (GEMINI_API_KEY g)) then
    st_error "Cannot generate solution: Gemini API Key is not configured."
  else if negb (Py.truthy (Py.strip user_question)) then
    st_warning "Please enter a question."
  else
    set_current_question user_question;;
    solution ← generate_solution user_question;
    set_current_solution solution;;
    set_solution_generated true;;
    if Py.truthy solution && negb (Py.startswith solution failure_sentinel) then
      if truthy_flag (firebase_initialized g) then
        saved ← save_qa_to_firestore user_question solution;
        if (saved : bool) then
          st_success "Question and solution saved to history!";;
          st_cache_data_clear
        else st_error "Failed to save question and solution to history."
      else st_warning "Firebase not initialized. Solution not saved to history."
    else st_error "Solution generation failed. Not saved to history.".

Definition input_section (user_question : string) (clicked : option button) : M unit :=
  match clicked with
  | Some Generate => on_generate user_question
  | _ => mret tt
  end.

(** *** Current solution (lines 204-209) *)

Definition show_current_solution : M unit :=
  s ← get_session;
  if solution_generated s then
    st_markdown (VStr ("**Question:** " +:+ current_question s));;
    st_markdown (VStr "**Answer:**");;
    st_markdown (VStr (current_solution s))
  else mret tt.

(** *** History section (lines 212-257) *)

Definition items_per_page : Z := 5.

Definition total_pages_for (past_qas : list Doc) : Z :=
  (Z.of_nat (length past_qas) + items_per_page - 1) `div` items_per_page.

(** The date shown for a record (line 253); [None] is the [TypeError] of
    slicing something that is not text. *)
Definition asked_on (qa : Doc) : option string :=
  match qa !! "timestamp" with
  | Some v =>
      if truthy_value v then
        match v with
        | VStr s => Some (Py.str_upto 10 s)
        | _ => None
        end
      else Some "N/A"
  | None => Some "N/A"
  end.

Definition expander_label (qa : Doc) : option string :=
  a ← asked_on qa;
  Some ("**Q: " +:+ format_value (default (VStr "N/A") (qa !! "question"))
        +:+ "** (Asked on: " +:+ a +:+ ")").

(** What one record puts on the page (lines 253-255). *)
Definition qa_events (qa : Doc) : option (list (event datetime)) :=
  label ← expander_label qa;
  Some [Expander label;
        Markdown (VStr "**Solution:**");
        Markdown (default (VStr "No solution stored.") (qa !! "solution"))].

Definition show_qa (qa : Doc) : M unit :=
  match qa_events qa with
  | Some evs => for_each evs emit
  | None => raise TypeError
  end.

(** What a list of records puts on the page, when none of them raises. *)
Fixpoint page_events (qas : list Doc) : option (list (event datetime)) :=
  match qas with
  | [] => Some []
  | qa :: rest =>
      evs ← qa_events qa;
      more ← page_events rest;
      Some (evs ++ more)
  end.

(** The f-string of line 235. *)
Definition caption (p total_pages : Z) : string :=
  "Page " +:+ Py.str_int p +:+ " of " +:+ Py.str_int total_pages.

(** Lines 226-239: the page number and the two buttons. *)
Definition page_controls (total_pages : Z) (clicked : option button) : M unit :=
  s ← get_session;
  (if present (history_page s) then mret tt else set_history_page 1);;
  match clicked with
  | Some Previous =>
      p ← get_history_page;
      if 1 <? p then set_history_page (p - 1) else mret tt
  | _ => mret tt
  end;;
  p ← get_history_page;
  st_write (caption p total_pages);;
  match clicked with
  | Some Next =>
      p ← get_history_page;
      if p <? total_pages then set_history_page (p + 1) else mret tt
  | _ => mret tt
  end.

Definition is_empty {A} (l : list A) : bool :=
  match l with [] => true | _ :: _ => false end.

(** Lines 241-255: the slice of the current page, the way back to page 1,
    and the records. *)
Definition show_page (past_qas : list Doc) : M unit :=
  p ← get_history_page;
  let start_idx := (p - 1) * items_per_page in
  let end_idx := start_idx + items_per_page in
  let current_page_qas := Py.slice past_qas start_idx end_idx in
  (if is_empty current_page_qas && (1 <? p) then
     set_history_page 1;;
     st_rerun
   else mret tt);;
  for_each current_page_qas show_qa.

(** Lines 218-255, for the list [get_past_qa_from_firestore] gave. *)
Definition show_history (past_qas : list Doc) (clicked : option button) : M unit :=
  if is_empty past_qas then
    st_info "No past questions and solutions found in the history."
  else
    page_controls (total_pages_for past_qas) clicked;;
    show_page past_qas.

Definition history_section (clicked : option button) : M unit :=
  if truthy_flag (firebase_initialized g) then
    past_qas ← get_past_qa_from_firestore_cached;
    show_history past_qas clicked
  else
    emit (Message Sidebar LvWarning
            "History section disabled as Firebase is not initialized.").

(** *** Sidebar (lines 262-276) *)

Definition sidebar_status : M unit :=
  (if truthy_flag (firebase_initialized g)
   then emit (Message Sidebar LvSuccess "Firebase Connected")
   else emit (Message Sidebar LvError "Firebase Disconnected"));;
  (if truthy_key (GEMINI_API_KEY g) && present (model g)
   then emit (Message Sidebar LvSuccess "Gemini Model Loaded")
   else emit (Message Sidebar LvError "Gemini Model Not Loaded"));;
  emit (Message Sidebar LvInfo
          ("This app uses Gemini for solution generation and Firebase Firestore for storing history. "
           +:+ "Ensure your API keys and Firebase configuration are set up correctly.")).

(** *** One run of the page below the configuration lines

    Headings, dividers, containers and the spinner carry no data and are
    left out. *)
Definition page (user_question : string) (clicked : option button) : M unit :=
  input_section user_question clicked;;
  show_current_solution;;
  history_section clicked;;
  sidebar_status.

End Model.

(** ** The whole script

    Lines 46 and 65-77 set the module-level names, then the page is laid
    out.  [init_firebase] (lines 20-44) only builds the client handle; it is
    taken as given. *)

Section Script.

Context `{Datetime datetime}.

Variable init_firebase : App datetime (option firestore_client * option bool).
Variable secrets_GEMINI_API_KEY : secret_lookup.
Variable remote : Remote datetime.

Definition script (user_question : string) (clicked : option button) : App datetime unit :=
  '(handle, initialized) ← init_firebase_cached init_firebase;
  api_key ← get_gemini_api_key_cached secrets_GEMINI_API_KEY;
  m ← configure_model remote api_key;
  page {| db := handle;
          firebase_initialized := initialized;
          GEMINI_API_KEY := api_key;
          model := m |}
    remote user_question clicked.

End Script.

(** ** Runs and reruns *)

Section Runs.

Context {datetime : Type}.

(** After [st.rerun()] Streamlit runs the script again, with no button
    pressed.  [fuel] bounds the number of runs. *)
Fixpoint run_to_end (fuel : nat) (script : option button → App datetime unit)
    (clicked : option button) (w : World datetime) :
    option (outcome unit * World datetime) :=
  match fuel with
  | O => None
  | S fuel' =>
      match script clicked w with
      | (Stop RerunException, w') => run_to_end fuel' script None w'
      | (o, w') => Some (o, w')
      end
  end.

(** A user pressing buttons one after the other; a press that ends in an
    uncaught exception ends the sequence. *)
Fixpoint press_all (fuel : nat) (script : option button → App datetime unit)
    (presses : list button) (w : World datetime) :
    option (outcome unit * World datetime) :=
  match presses with
  | [] => Some (Done tt, w)
  | b :: rest =>
      match run_to_end fuel script (Some b) w with
      | Some (Done _, w') => press_all fuel script rest w'
      | other => other
      end
  end.

(** The world with more events in its log, and with another session. *)
Definition logged (evs : list (event datetime)) (w : World datetime) : World datetime :=
  {| session := session w; caches := caches w; log := log w ++ evs |}.

Definition in_session (s : Session) (w : World datetime) : World datetime :=
  {| session := s; caches := caches w; log := log w |}.

Definition on_page (p : Z) (s : Session) : Session :=
  {| current_question := current_question s;
     current_solution := current_solution s;
     solution_generated := solution_generated s;
     history_page := Some p |}.

(** The page number after the Previous button (lines 231-233) and after the
    Next button (lines 237-239) have been looked at. *)
Definition after_previous (clicked : option button) (p : Z) : Z :=
  match clicked with
  | Some Previous => if 1 <? p then p - 1 else p
  | _ => p
  end.

Definition after_next (total_pages : Z) (clicked : option button) (p : Z) : Z :=
  match clicked with
  | Some Next => if p <? total_pages then p + 1 else p
  | _ => p
  end.

(** The documents the events of a log handed to [add]. *)
Definition writes (evs : list (event datetime)) : list (gmap string (wvalue datetime)) :=
  omap (λ e, match e with CollectionAdd doc => Some doc | _ => None end) evs.

(** The prompts the events of a log sent to the model. *)
Definition prompts (evs : list (event datetime)) : list string :=
  omap (λ e, match e with GenerateContent p => Some p | _ => None end) evs.

(** The labels of the records a log shows. *)
Definition labels (evs : list (event datetime)) : list string :=
  omap (λ e, match e with Expander l => Some l | _ => None end) evs.

(** The messages of one level. *)
Definition messages (lv : level) (evs : list (event datetime)) : list string :=
  omap (λ e, match e with
             | Message _ lv' msg =>
                 match lv, lv' with
                 | LvError, LvError | LvWarning, LvWarning
                 | LvSuccess, LvSuccess | LvInfo, LvInfo => Some msg
                 | _, _ => None
                 end
             | _ => None
             end) evs.

End Runs.

(** ** The history list in the cache *)

(** The cached history list, when there is one, is a list
    [get_past_qa_from_firestore] built. *)
Definition history_cache_ok `{Datetime datetime} (c : Caches datetime) : Prop :=
  match data_get_past_qa_from_firestore c with
  | Some past_qas => ∃ docs, past_qas = normalize_timestamp <$> docs
  | None => True
  end.

(** ** Sentences of the specification the script departs from

    Each is written down the way the specification has it, to be compared
    with what the script does. *)

Section AsStated.

Context `{Datetime datetime}.

(** C2 as stated: for a non-empty question and a configured model,
    [generate] returns either the remote response text verbatim, and that
    text does not start with the failure sentinel prefix, or, on a remote
    fault, exactly the failure string; there is no third result shape. *)
Definition two_shapes_as_stated (g : Globals) (remote : Remote datetime)
    (question : string) (w : World datetime) : Prop :=
  (∃ text,
      generate_content remote (prompt_for question) = Returned text
      ∧ (generate_solution g remote question w).1 = Done text
      ∧ Py.startswith text failure_sentinel = false)
  ∨ (∃ e,
      generate_content remote (prompt_for question) = Raised e
      ∧ (generate_solution g remote question w).1 = Done (failure_text e)).

(** C7 as stated: for every call to [generate] with an empty question, the
    result is the prompt string 'Please enter a question.', the remote
    generation service is not invoked, and no exception is raised. *)
Definition empty_question_as_stated (g : Globals) (remote : Remote datetime)
    (w : World datetime) : Prop :=
  generate_solution g remote EmptyString w = (Done please_enter_a_question, w).

(** C8 as stated: for every generate action whose input text trims to
    empty, a warning is shown, the generator is never invoked, and all
    session state (current question, current solution, generated flag, page
    number) is unchanged.  The warning of the handler is the one of line
    180. *)
Definition blank_input_as_stated (g : Globals) (remote : Remote datetime)
    (user_question : string) (w : World datetime) : Prop :=
  Py.strip user_question = EmptyString →
  ∃ w',
    on_generate g remote user_question w = (Done tt, w')
    ∧ messages LvWarning (log w') = messages LvWarning (log w) ++ ["Please enter a question."]
    ∧ prompts (log w') = prompts (log w)
    ∧ session w' = session w.

(** C6 as stated: every record returned by [list_all] has its timestamp
    value normalized to a sortable, serializable text form before being
    handed to callers.  So whatever stands under 'timestamp' in a returned
    record is text. *)
Definition timestamps_are_text_as_stated (g : Globals) (remote : Remote datetime)
    (w : World datetime) : Prop :=
  ∀ past_qas w',
    get_past_qa_from_firestore g remote w = (Done past_qas, w') →
    ∀ qa v, qa ∈ past_qas → qa !! "timestamp" = Some v → is_text v = true.

(** C4 as stated: for every page number [p] and history list, the display
    shows exactly the records with indices [(p-1)*5, p*5) of that list;
    and if that slice is empty while [p > 1], the page number is reset to 1
    and an immediate redisplay is forced. *)
Definition page_slice_as_stated (past_qas : list (gmap string (value datetime)))
    (p : Z) (w : World datetime) : Prop :=
  let current := take 5 (drop (Z.to_nat ((p - 1) * 5)) past_qas) in
  let '(o, w') := show_history past_qas None (in_session (on_page p (session w)) w) in
  (Some <$> labels (log w')) = (Some <$> labels (log w)) ++ (expander_label <$> current)
  ∧ (current = [] → 1 < p →
     history_page (session w') = Some 1 ∧ o = Stop RerunException).

End AsStated.

(** ** A sample instance, for closed examples *)

(** An instant given by its date and its time of day, both as text. *)
Record stamp : Type := Stamp { stamp_date : string; stamp_time : string }.

#[global] Instance stamp_datetime : Datetime stamp :=
  {| isoformat t := stamp_date t +:+ "T" +:+ stamp_time t;
     datetime_str t := stamp_date t +:+ " " +:+ stamp_time t |}.

Definition sample_world : World stamp :=
  {| session := initial_session; caches := empty_caches; log := [] |}.

(** Store connected, key present, model built. *)
Definition sample_globals : Globals :=
  {| db := Some FirestoreClient;
     firebase_initialized := Some true;
     GEMINI_API_KEY := Some "k";
     model := Some (GenerativeModel "gemini-1.5-flash") |}.

(** Services that all answer. *)
Definition sample_remote : Remote stamp :=
  {| construct_model k := Returned (GenerativeModel "gemini-1.5-flash");
     generate_content prompt := Returned "x = 2";
     collection_add doc := Returned tt;
     collection_stream := Returned [] |}.

(** Key present, but the model could not be built. *)
Definition no_model_globals : Globals :=
  {| db := Some FirestoreClient;
     firebase_initialized := Some true;
     GEMINI_API_KEY := Some "k";
     model := None |}.

(** No key at all. *)
Definition no_key_globals : Globals :=
  {| db := Some FirestoreClient;
     firebase_initialized := Some true;
     GEMINI_API_KEY := None;
     model := None |}.

(** A model whose construction raises. *)
Definition broken_model_remote : Remote stamp :=
  {| construct_model k := Raised "invalid model";
     generate_content prompt := Returned "x = 2";
     collection_add doc := Returned tt;
     collection_stream := Returned [] |}.

(** A model that raises when asked. *)
Definition failing_remote : Remote stamp :=
  {| construct_model k := Returned (GenerativeModel "gemini-1.5-flash");
     generate_content prompt := Raised "quota exceeded";
     collection_add doc := Returned tt;
     collection_stream := Returned [] |}.

(** A model whose answer itself begins like the failure text. *)
Definition apologetic_remote : Remote stamp :=
  {| construct_model k := Returned (GenerativeModel "gemini-1.5-flash");
     generate_content prompt :=
       Returned "Sorry, I couldn't generate a solution at this time. Error: none";
     collection_add doc := Returned tt;
     collection_stream := Returned [] |}.

(** A model whose answer begins with the literal of line 189 and goes on
    differently from the failure text. *)
Definition regretful_remote : Remote stamp :=
  {| construct_model k := Returned (GenerativeModel "gemini-1.5-flash");
     generate_content prompt :=
       Returned "Sorry, I couldn't generate a solution for this one.";
     collection_add doc := Returned tt;
     collection_stream := Returned [] |}.

Definition sample_record (q : string) (ts : value stamp) : gmap string (value stamp) :=
  <["question" := VStr q]>
    (<["solution" := VStr "x = 2"]> (<["timestamp" := ts]> ∅)).

Definition may_day : stamp := Stamp "2024-05-01" "12:00:00+00:00".

(** A collection with one record stamped by the server and one whose
    timestamp is null. *)
Definition null_timestamp_remote : Remote stamp :=
  {| construct_model k := Returned (GenerativeModel "gemini-1.5-flash");
     generate_content prompt := Returned "x = 2";
     collection_add doc := Returned tt;
     collection_stream :=
       Returned [sample_record "a" (VDatetime may_day); sample_record "b" VNone] |}.

(** Twelve stored records, all stamped by the server. *)
Definition twelve_records : list (gmap string (value stamp)) :=
  (λ q, sample_record q (VDatetime may_day))
    <$> ["a"; "b"; "c"; "d"; "e"; "f"; "g"; "h"; "i"; "j"; "k"; "l"].

(** A world whose three memo tables are all filled. *)
Definition warm_world : World stamp :=
  {| session := initial_session;
     caches := {| resource_init_firebase := Some (Some FirestoreClient, Some true);
                  data_get_gemini_api_key := Some (Some "k");
                  data_get_past_qa_from_firestore := Some [] |};
     log := [] |}.

(** ** Credentials (lines 20-44) *)

(** Where [init_firebase] takes the credentials from. *)
Inductive credential_source : Type := FromSecrets | FromFile.

(** What the environment answers while [init_firebase] runs. *)
Record FirebaseSetup : Type := {
  (* [firebase_admin._apps] is not empty *)
  apps_initialized : bool;
  (* [st.secrets.get("firebase_credentials")]: raises, or gives something
     whose truth value is the boolean *)
  secrets_firebase_credentials : result bool;
  (* [os.path.exists("firebase_config.json")] *)
  config_file_exists : bool;
  (* [credentials.Certificate(...)] on the bundle or on the file *)
  certificate : credential_source → result unit;
  (* [firebase_admin.initialize_app(cred)] *)
  initialize_app : credential_source → result unit;
  (* [firestore.client()] *)
  firestore_client_call : result firestore_client
}.

Section Credentials.

Context {datetime : Type}.

Variable env : FirebaseSetup.

(** The [except] clause of lines 42-44. *)
Definition init_failed (e : string) : App datetime (option firestore_client * option bool) :=
  st_error ("Failed to initialize Firebase: " +:+ e);;
  mret (None, Some false).

(** Lines 40-41. *)
Definition connect_client : App datetime (option firestore_client * option bool) :=
  match firestore_client_call env with
  | Returned handle => mret (Some handle, Some true)
  | Raised e => init_failed e
  end.

(** Lines 28-29 or 32-33, then line 39. *)
Definition load_credentials (source : credential_source) (loaded : string) :
    App datetime (option firestore_client * option bool) :=
  match certificate env source with
  | Raised e => init_failed e
  | Returned _ =>
      st_success loaded;;
      match initialize_app env source with
      | Raised e => init_failed e
      | Returned _ => connect_client
      end
  end.

Definition configuration_not_found : string :=
  "Firebase configuration not found. "
  +:+ "Please ensure 'firebase_config.json' is present or "
  +:+ "'firebase_credentials' are set in Streamlit secrets.".

(** The body under [@st.cache_resource]. *)
Definition init_firebase : App datetime (option firestore_client * option bool) :=
  if apps_initialized env then connect_client
  else
    match secrets_firebase_credentials env with
    | Raised e => init_failed e
    | Returned true =>
        load_credentials FromSecrets "Firebase initialized from Streamlit secrets."
    | Returned false =>
        if config_file_exists env then
          load_credentials FromFile "Firebase initialized from local firebase_config.json."
        else
          st_error configuration_not_found;;
          mret (None, None)
    end.

End Credentials.

(** ** Invariants of a session *)

(** The page number, once stored, is at least 1. *)
Definition page_ok (s : Session) : Prop :=
  match history_page s with
  | Some p => 1 ≤ p
  | None => True
  end.

(** The module-level names as lines 46 and 65-77 leave them. *)
Definition globals_of (handle : option firestore_client) (initialized : option bool)
    (api_key : option string) (m : option generative_model) : Globals :=
  {| db := handle;
     firebase_initialized := initialized;
     GEMINI_API_KEY := api_key;
     model := m |}.

(** How many times the events of a log queried the collection. *)
Definition queries {datetime} (evs : list (event datetime)) : nat :=
  length (omap (λ e, match e with QueryStream => Some tt | _ => None end) evs).

(** ** A session, interaction after interaction *)

(** One interaction of the user with the page, and what the world around
    the script is like while it lasts: whether the history entry of the
    cache has outlived its five minutes, what the credential sources and
    the secrets hold, and what the services answer. *)
Record Interaction (datetime : Type) : Type := {
  typed : string;
  pressed : option button;
  expired : bool;
  setup : FirebaseSetup;
  secret : secret_lookup;
  services : Remote datetime
}.
Arguments typed {datetime} i.
Arguments pressed {datetime} i.
Arguments expired {datetime} i.
Arguments setup {datetime} i.
Arguments secret {datetime} i.
Arguments services {datetime} i.

Section Sessions.

Context `{Datetime datetime}.

(** The world as an interaction finds it. *)
Definition before (i : Interaction datetime) (w : World datetime) : World datetime :=
  {| session := session w;
     caches := if expired i then ttl_expiry (caches w) else caches w;
     log := log w |}.

(** The script of one interaction, as a function of the button. *)
Definition script_of (i : Interaction datetime) : option button → App datetime unit :=
  script (init_firebase (setup i)) (secret i) (services i) (typed i).

(** A user going through a list of interactions; an interaction that ends
    in an uncaught exception ends the session. *)
Fixpoint interact_all (fuel : nat) (interactions : list (Interaction datetime))
    (w : World datetime) : option (outcome unit * World datetime) :=
  match interactions with
  | [] => Some (Done tt, w)
  | i :: rest =>
      match run_to_end fuel (script_of i) (pressed i) (before i w) with
      | Some (Done _, w') => interact_all fuel rest w'
      | other => other
      end
  end.

(** The world of a process that has just started. *)
Definition fresh_world : World datetime :=
  {| session := initial_session; caches := empty_caches; log := [] |}.

End Sessions.

(** ** More sample values *)

(** Credentials in the secrets, no local file, everything answering. *)
Definition secrets_setup : FirebaseSetup :=
  {| apps_initialized := false;
     secrets_firebase_credentials := Returned true;
     config_file_exists := false;
     certificate source := Returned tt;
     initialize_app source := Returned tt;
     firestore_client_call := Returned FirestoreClient |}.

(** The same, with a local file that cannot be read lying around. *)
Definition secrets_and_bad_file_setup : FirebaseSetup :=
  {| apps_initialized := false;
     secrets_firebase_credentials := Returned true;
     config_file_exists := true;
     certificate source :=
       match source with
       | FromSecrets => Returned tt
       | FromFile => Raised "invalid certificate"
       end;
     initialize_app source := Returned tt;
     firestore_client_call := Returned FirestoreClient |}.

(** An app that already exists; no credentials anywhere. *)
Definition running_app_setup : FirebaseSetup :=
  {| apps_initialized := true;
     secrets_firebase_credentials := Raised "no secrets file";
     config_file_exists := false;
     certificate source := Raised "invalid certificate";
     initialize_app source := Raised "app exists";
     firestore_client_call := Returned FirestoreClient |}.

(** An app that already exists, with credentials in the secrets as well. *)
Definition running_app_with_secrets_setup : FirebaseSetup :=
  {| apps_initialized := true;
     secrets_firebase_credentials := Returned true;
     config_file_exists := true;
     certificate source := Returned tt;
     initialize_app source := Returned tt;
     firestore_client_call := Returned FirestoreClient |}.

(** No credentials at all. *)
Definition bare_setup : FirebaseSetup :=
  {| apps_initialized := false;
     secrets_firebase_credentials := Returned false;
     config_file_exists := false;
     certificate source := Raised "invalid certificate";
     initialize_app source := Returned tt;
     firestore_client_call := Returned FirestoreClient |}.

(** Key and model, but no store. *)
Definition offline_globals : Globals :=
  {| db := None;
     firebase_initialized := None;
     GEMINI_API_KEY := Some "k";
     model := Some (GenerativeModel "gemini-1.5-flash") |}.

(** A store that refuses the write. *)
Definition read_only_remote : Remote stamp :=
  {| construct_model k := Returned (GenerativeModel "gemini-1.5-flash");
     generate_content prompt := Returned "x = 2";
     collection_add doc := Raised "permission denied";
     collection_stream := Returned [] |}.

(** A model that answers with the empty text. *)
Definition silent_remote : Remote stamp :=
  {| construct_model k := Returned (GenerativeModel "gemini-1.5-flash");
     generate_content prompt := Returned EmptyString;
     collection_add doc := Returned tt;
     collection_stream := Returned [] |}.

(** A collection of twelve records. *)
Definition twelve_remote : Remote stamp :=
  {| construct_model k := Returned (GenerativeModel "gemini-1.5-flash");
     generate_content prompt := Returned "x = 2";
     collection_add doc := Returned tt;
     collection_stream := Returned twelve_records |}.

(** A session on page 7. *)
Definition page_seven_world : World stamp :=
  {| session := on_page 7 initial_session; caches := empty_caches; log := [] |}.

(** ** Properties *)

Section Properties.
Context `{Datetime datetime}.
Implicit Types (g : Globals) (remote : Remote datetime) (w : World datetime).

Create HintDb app_steps.

#[local] Hint Unfold mbind mret App_bind App_ret
  st_error st_warning st_success st_info st_write st_markdown
  st_rerun raise st_cache_data_clear
  set_current_question set_current_solution set_solution_generated
  set_history_page get_history_page
  add_to_collection stream_collection ask_model
  emit get_session put_session get_caches put_caches : app_steps.

(** Runs the primitive steps of the monad. *)
Ltac run := repeat (progress (autounfold with app_steps; simpl)).

Ltac not_shown :=
  let Hin := fresh in
  simpl; intros Hin; apply list_elem_of_In in Hin; simpl in Hin;
  intuition discriminate.

Ltac tidy_log := unfold logged; simpl; rewrite <- ?app_assoc; simpl.

Lemma truthy_false s : Py.truthy s = false ↔ s = EmptyString.
Proof. destruct s; simpl; split; congruence. Qed.

Lemma truthy_true s : Py.truthy s = true ↔ s ≠ EmptyString.
Proof. destruct s; simpl; split; congruence. Qed.

Lemma qa_document_fields q s :
  qa_document (datetime:=datetime) q s !! "question" = Some (WStr q)
  ∧ qa_document (datetime:=datetime) q s !! "solution" = Some (WStr s)
  ∧ qa_document (datetime:=datetime) q s !! "timestamp" = Some SERVER_TIMESTAMP.
Proof. unfold qa_document. repeat split; by simplify_map_eq. Qed.

(** The four ways [save_qa_to_firestore] can go. *)
Lemma save_qa_to_firestore_cases g remote question solution w :
  save_qa_to_firestore g remote question solution w =
    if store_uninitialized g then
      (Done false,
       logged [Message Main LvError "Firebase not initialized. Cannot save data."] w)
    else if negb (Py.truthy question) || negb (Py.truthy solution) then
      (Done false,
       logged [Message Main LvWarning
                 "Question or solution is empty. Nothing to save."] w)
    else
      match collection_add remote (qa_document question solution) with
      | Returned _ =>
          (Done true, logged [CollectionAdd (qa_document question solution)] w)
      | Raised e =>
          (Done false,
           logged [CollectionAdd (qa_document question solution);
                   Message Main LvError ("Error saving to Firestore: " +:+ e)] w)
      end.
Proof.
  unfold save_qa_to_firestore.
  destruct (store_uninitialized g); [reflexivity|].
  destruct (negb (Py.truthy question) || negb (Py.truthy solution)); [reflexivity|].
  run. destruct (collection_add remote _); [reflexivity|].
  tidy_log. reflexivity.
Qed.

(** C5.  [save_qa_to_firestore] always returns a boolean and touches
    neither the session nor the caches.  With the store uninitialized, or
    with an empty question or solution, it returns [False] and never calls
    [add]; the first case shows the error "Firebase not initialized. Cannot
    save data.", the second the warning "Question or solution is empty.
    Nothing to save.".  It returns [True] only when the store is there,
    both fields are non-empty and [add] returned; the document handed over
    holds the question, the solution, and [SERVER_TIMESTAMP] under
    "timestamp", so the time is the server's to assign.  When [add] raises it
    returns [False] and shows "Error saving to Firestore: " followed by the
    text of the fault. *)
Theorem C5_save_qa_to_firestore g remote question solution w :
  let doc : gmap string (wvalue datetime) := qa_document question solution in
  ∃ (saved : bool) (evs : list (event datetime)),
    save_qa_to_firestore g remote question solution w = (Done saved, logged evs w)
    ∧ (doc !! "question" = Some (WStr question)
       ∧ doc !! "solution" = Some (WStr solution)
       ∧ doc !! "timestamp" = Some SERVER_TIMESTAMP)
    ∧ (store_uninitialized g = true ∨ question = EmptyString ∨ solution = EmptyString →
       saved = false ∧ writes evs = [])
    ∧ (store_uninitialized g = true →
       evs = [Message Main LvError "Firebase not initialized. Cannot save data."])
    ∧ (store_uninitialized g = false →
       question = EmptyString ∨ solution = EmptyString →
       evs = [Message Main LvWarning "Question or solution is empty. Nothing to save."])
    ∧ (saved = true →
       store_uninitialized g = false ∧ question ≠ EmptyString ∧ solution ≠ EmptyString
       ∧ collection_add remote doc = Returned tt ∧ evs = [CollectionAdd doc])
    ∧ (store_uninitialized g = false → question ≠ EmptyString → solution ≠ EmptyString →
       match collection_add remote doc with
       | Returned _ => saved = true ∧ evs = [CollectionAdd doc]
       | Raised e =>
           saved = false
           ∧ evs = [CollectionAdd doc;
                    Message Main LvError ("Error saving to Firestore: " +:+ e)]
       end).
Proof.
  intros doc. rewrite save_qa_to_firestore_cases. fold doc.
  pose proof (qa_document_fields question solution) as Hts. fold doc in Hts.
  destruct (store_uninitialized g) eqn:Hu.
  { eexists false, _. split; [reflexivity|]. repeat split; try done. }
  destruct (Py.truthy question) eqn:Hq; simpl.
  2:{ eexists false, _. split; [reflexivity|]. apply truthy_false in Hq.
      repeat split; try done. }
  destruct (Py.truthy solution) eqn:Hs; simpl.
  2:{ eexists false, _. split; [reflexivity|]. apply truthy_false in Hs.
      repeat split; try done. }
  apply truthy_true in Hq, Hs.
  destruct (collection_add remote doc) as [[]|e] eqn:Hadd.
  - eexists true, _. split; [reflexivity|].
    repeat split; try done; intuition congruence.
  - eexists false, _. split; [reflexivity|].
    repeat split; try done; intuition congruence.
Qed.

Lemma logged_nil w : logged [] w = w.
Proof. destruct w. unfold logged. simpl. by rewrite app_nil_r. Qed.

Lemma logged_logged (a b : list (event datetime)) w :
  logged b (logged a w) = logged (a ++ b) w.
Proof. unfold logged; simpl. by rewrite app_assoc. Qed.

Lemma writes_app (a b : list (event datetime)) : writes (a ++ b) = writes a ++ writes b.
Proof. unfold writes. apply omap_app. Qed.

Lemma prompts_app (a b : list (event datetime)) : prompts (a ++ b) = prompts a ++ prompts b.
Proof. unfold prompts. apply omap_app. Qed.

Lemma failure_text_startswith e :
  Py.startswith (failure_text e) failure_sentinel = true.
Proof. reflexivity. Qed.

Lemma model_not_initialized_startswith :
  Py.startswith model_not_initialized failure_sentinel = false.
Proof. reflexivity. Qed.

(** The generator only adds to the log, and never a write. *)
Lemma generate_solution_run g remote question :
  ∃ (solution : string) (evs : list (event datetime)),
    writes evs = []
    ∧ ∀ w, generate_solution g remote question w = (Done solution, logged evs w).
Proof.
  unfold generate_solution.
  destruct (present (model g)); simpl.
  2:{ exists model_not_initialized, []. split; [done|]. intros w. by rewrite logged_nil. }
  destruct (Py.truthy question); simpl.
  2:{ exists please_enter_a_question, []. split; [done|]. intros w. by rewrite logged_nil. }
  run. destruct (generate_content remote (prompt_for question)) as [text|e].
  - eexists text, _. split; [|intros w; reflexivity]. done.
  - eexists (failure_text e), _. split; [|intros w; tidy_log; reflexivity]. done.
Qed.

(** C7, as the script has it.  For the empty question [generate_solution]
    returns at once, with the world as it was (so no call of the model and
    no message) and no exception: "Please enter a question." when the model
    is configured, and the text about the model not being initialized when
    it is not, because line 129 comes before line 131. *)
Theorem C7_generate_solution_empty_question g remote w :
  generate_solution g remote EmptyString w =
    (Done (if present (model g) then please_enter_a_question
           else model_not_initialized), w).
Proof. unfold generate_solution. destruct (model g); reflexivity. Qed.

(** C2, as the script has it.  For a non-empty question and a configured
    model there are two results and no third.  If the model answers, the
    result is its text, verbatim and unexamined: it starts with the failure
    sentinel exactly when the answer does.  If the call raises, the fault
    is shown and the result is exactly
    "Sorry, I couldn't generate a solution at this time. Error: " followed
    by the text of the fault, which starts with the sentinel. *)
Theorem C2_generate_solution_shapes g remote question w :
  question ≠ EmptyString →
  present (model g) = true →
  match generate_content remote (prompt_for question) with
  | Returned text =>
      generate_solution g remote question w =
        (Done text, logged [GenerateContent (prompt_for question)] w)
  | Raised e =>
      generate_solution g remote question w =
        (Done (failure_text e),
         logged [GenerateContent (prompt_for question);
                 Message Main LvError ("Error generating solution with Gemini: " +:+ e)] w)
      ∧ Py.startswith (failure_text e) failure_sentinel = true
  end.
Proof.
  intros Hq Hm. apply truthy_true in Hq.
  unfold generate_solution. rewrite Hm, Hq. run.
  destruct (generate_content remote (prompt_for question)) as [text|e].
  - reflexivity.
  - split; [tidy_log; reflexivity | reflexivity].
Qed.

(** C8, as the script has it.  For an input that trims to nothing the
    handler of the generate button shows one message and does nothing else:
    session and caches are as before and the model is not called.  The
    message is the warning "Please enter a question." when an API key is
    configured, and the error "Cannot generate solution: Gemini API Key is
    not configured." when none is. *)
Theorem C8_blank_question_changes_nothing g remote user_question w :
  Py.strip user_question = EmptyString →
  on_generate g remote user_question w =
    (Done tt,
     logged [if truthy_key (GEMINI_API_KEY g)
             then Message Main LvWarning "Please enter a question."
             else Message Main LvError
                    "Cannot generate solution: Gemini API Key is not configured."] w).
Proof.
  intros Hq. unfold on_generate. rewrite Hq.
  destruct (truthy_key (GEMINI_API_KEY g)); reflexivity.
Qed.

(** C1.  When the solution that [generate_solution] returned starts with
    the failure sentinel, the handler of the generate button stores the
    question, that solution and the generated flag in the session, reports
    "Solution generation failed. Not saved to history." and takes no other
    step: the log gains no call of [add], whatever the state of the store,
    and the caches are untouched. *)
Theorem C1_failed_generation_is_not_saved g remote user_question w solution w1 :
  truthy_key (GEMINI_API_KEY g) = true →
  Py.strip user_question ≠ EmptyString →
  generate_solution g remote user_question w = (Done solution, w1) →
  Py.startswith solution failure_sentinel = true →
  let failed : event datetime :=
    Message Main LvError "Solution generation failed. Not saved to history." in
  on_generate g remote user_question w =
    (Done tt,
     {| session := {| current_question := user_question;
                      current_solution := solution;
                      solution_generated := true;
                      history_page := history_page (session w) |};
        caches := caches w;
        log := log w1 ++ [failed] |})
  ∧ writes (log w1 ++ [failed]) = writes (log w).
Proof.
  intros Hkey Hq Hgen Hsent failed.
  destruct (generate_solution_run g remote user_question) as (sol & evs & Hw & Hrun).
  rewrite Hrun in Hgen. injection Hgen as -> <-.
  apply truthy_true in Hq.
  unfold on_generate. rewrite Hkey, Hq. run. rewrite Hrun. simpl.
  rewrite Hsent, andb_false_r. split; [reflexivity|].
  rewrite <- app_assoc, !writes_app, Hw. simpl. by rewrite app_nil_r.
Qed.


Lemma strip_nonempty q : Py.strip q ≠ EmptyString → q ≠ EmptyString.
Proof. intros Hq ->. by apply Hq. Qed.

(** C9.  With a key present and a model whose construction raised, line
    74 leaves [model] at [None]; [generate_solution] then returns the fixed
    text "Error: Gemini model not initialized. ..." for every question,
    with no call made; that text does not start with the failure sentinel;
    so for a non-blank question the handler stores it as the current
    solution, never reports "Solution generation failed. Not saved to
    history.", and, when [firebase_initialized] is true, goes on to
    [save_qa_to_firestore] with it.  With the store initialized the text
    is handed to [add]. *)
Theorem C9_unconfigured_model_text_is_saved
    remote k e dbv fi user_question w :
  Py.truthy k = true →
  construct_model remote k = Raised e →
  Py.strip user_question ≠ EmptyString →
  let g := {| db := dbv; firebase_initialized := fi;
              GEMINI_API_KEY := Some k; model := None |} in
  let generated := {| current_question := user_question;
                      current_solution := model_not_initialized;
                      solution_generated := true;
                      history_page := history_page (session w) |} in
  (∀ w0, configure_model remote (Some k) w0 =
           (Done None,
            logged [Message Sidebar LvError ("Error configuring Gemini API: " +:+ e)] w0))
  ∧ (∀ question w0,
       generate_solution g remote question w0 = (Done model_not_initialized, w0))
  ∧ Py.startswith model_not_initialized failure_sentinel = false
  ∧ ∃ w' evs,
      on_generate g remote user_question w = (Done tt, w')
      ∧ session w' = generated
      ∧ log w' = log w ++ evs
      ∧ ("Solution generation failed. Not saved to history." ∉ messages LvError evs)
      ∧ (truthy_flag fi = true →
         ∃ saved w1,
           save_qa_to_firestore g remote user_question model_not_initialized
             (in_session generated w) = (Done saved, w1)
           ∧ log w' = log w1 ++
               [(if saved
                 then Message Main LvSuccess "Question and solution saved to history!"
                 else Message Main LvError
                        "Failed to save question and solution to history.")])
      ∧ (store_uninitialized g = false →
         writes evs = [qa_document user_question model_not_initialized]).
Proof.
  intros Hk Hc Hq g generated.
  split; [intros w0; unfold configure_model; rewrite Hk, Hc; reflexivity|].
  split; [reflexivity|]. split; [reflexivity|].
  pose proof (strip_nonempty _ Hq) as Hq'. apply truthy_true in Hq, Hq'.
  unfold on_generate. simpl. rewrite Hk, Hq. run.
  fold generated. change {| session := generated; caches := caches w; log := log w |}
    with (in_session generated w).
  destruct fi as [[]|]; simpl.
  2,3: eexists _, _; split; [reflexivity|]; simpl;
       split; [done|]; split; [reflexivity|]; split; [not_shown|]; split; done.
  rewrite save_qa_to_firestore_cases. rewrite Hq'. simpl.
  destruct (store_uninitialized g) eqn:Hu; simpl.
  { eexists _, _. split; [reflexivity|]. simpl. rewrite <- app_assoc.
    split; [done|]. split; [reflexivity|]. split; [not_shown|]. split; [|done].
    intros _. eexists false, _. split; [reflexivity|]. simpl. by rewrite <- app_assoc. }
  destruct (collection_add remote _) as [[]|e']; simpl.
  - eexists _, _. split; [reflexivity|]. simpl. rewrite <- app_assoc.
    split; [done|]. split; [reflexivity|]. split; [not_shown|]. split; [|done].
    intros _. eexists true, _. split; [reflexivity|]. simpl. by rewrite <- app_assoc.
  - eexists _, _. split; [reflexivity|]. simpl. rewrite <- !app_assoc.
    split; [done|]. split; [reflexivity|]. split; [not_shown|]. split; [|done].
    intros _. eexists false, _. split; [reflexivity|]. simpl. by rewrite <- !app_assoc.
Qed.


(** C10.  After a save that succeeded, the handler has emptied both tables
    under [@st.cache_data], the one of [get_past_qa_from_firestore] and the
    one of [get_gemini_api_key], and has left the table of [init_firebase],
    which is under [@st.cache_resource], as it was.  So the next call of
    the decorated [get_gemini_api_key] reads the secrets again, while the
    next call of the decorated [init_firebase] still gives the stored
    handle. *)
Theorem C10_clear_empties_every_data_cache
    g remote user_question w solution w1 :
  truthy_key (GEMINI_API_KEY g) = true →
  Py.strip user_question ≠ EmptyString →
  generate_solution g remote user_question w = (Done solution, w1) →
  solution ≠ EmptyString →
  Py.startswith solution failure_sentinel = false →
  store_uninitialized g = false →
  collection_add remote (qa_document user_question solution) = Returned tt →
  ∃ w',
    on_generate g remote user_question w = (Done tt, w')
    ∧ log w' = log w1 ++ [CollectionAdd (qa_document user_question solution);
                          Message Main LvSuccess "Question and solution saved to history!"]
    ∧ data_get_past_qa_from_firestore (caches w') = None
    ∧ data_get_gemini_api_key (caches w') = None
    ∧ resource_init_firebase (caches w') = resource_init_firebase (caches w)
    ∧ (∀ key, (get_gemini_api_key_cached (SecretValue key) w').1 =
                Done (if Py.truthy key then Some key else None))
    ∧ (∀ init_firebase handle,
         resource_init_firebase (caches w) = Some handle →
         init_firebase_cached init_firebase w' = (Done handle, w')).
Proof.
  intros Hkey Hq Hgen Hsol Hsent Hu Hadd.
  destruct (generate_solution_run g remote user_question) as (sol & evs & Hw & Hrun).
  rewrite Hrun in Hgen. injection Hgen as -> <-.
  pose proof (strip_nonempty _ Hq) as Hq'. apply truthy_true in Hq, Hq', Hsol.
  assert (truthy_flag (firebase_initialized g) = true) as Hfi.
  { unfold store_uninitialized in Hu. apply orb_false_elim in Hu as [Hu _].
    by apply negb_false_iff in Hu. }
  unfold on_generate. rewrite Hkey, Hq. run. rewrite Hrun. simpl.
  rewrite Hsol, Hsent, Hfi. simpl.
  rewrite save_qa_to_firestore_cases, Hu, Hq', Hsol, Hadd. simpl.
  eexists. split; [reflexivity|]. simpl.
  split; [by rewrite <- !app_assoc|].
  split; [done|]. split; [done|]. split; [done|].
  split.
  - intros key. unfold get_gemini_api_key_cached, get_gemini_api_key. run.
    by destruct (Py.truthy key).
  - intros init_firebase handle Hh. unfold init_firebase_cached. run.
    by rewrite Hh.
Qed.

Lemma normalize_timestamp_no_datetime (doc : gmap string (value datetime)) v :
  normalize_timestamp doc !! "timestamp" = Some v → is_datetime v = false.
Proof.
  unfold normalize_timestamp.
  destruct (doc !! "timestamp") as [[s|t|]|] eqn:Hts; intros Hv.
  - rewrite Hts in Hv. by injection Hv as <-.
  - rewrite lookup_insert_eq in Hv. by injection Hv as <-.
  - rewrite Hts in Hv. by injection Hv as <-.
  - by rewrite Hts in Hv.
Qed.

Lemma normalize_timestamp_datetime (doc : gmap string (value datetime)) t :
  doc !! "timestamp" = Some (VDatetime t) →
  normalize_timestamp doc = <["timestamp" := VStr (isoformat t)]> doc.
Proof. intros Hts. unfold normalize_timestamp. by rewrite Hts. Qed.

Lemma normalize_timestamp_other (doc : gmap string (value datetime)) :
  (∀ t, doc !! "timestamp" ≠ Some (VDatetime t)) → normalize_timestamp doc = doc.
Proof.
  intros Hts. unfold normalize_timestamp.
  destruct (doc !! "timestamp") as [[s|t|]|] eqn:E; try done.
  by destruct (Hts t).
Qed.

(** The four ways [get_past_qa_from_firestore] can go. *)
Lemma get_past_qa_from_firestore_cases g remote w :
  get_past_qa_from_firestore g remote w =
    if store_uninitialized g then
      (Done [], logged [Message Main LvError
                          "Firebase not initialized. Cannot retrieve data."] w)
    else
      match collection_stream remote with
      | Returned docs => (Done (normalize_timestamp <$> docs), logged [QueryStream] w)
      | Raised e =>
          (Done [], logged [QueryStream;
                            Message Main LvError
                              ("Error retrieving from Firestore: " +:+ e)] w)
      end.
Proof.
  unfold get_past_qa_from_firestore.
  destruct (store_uninitialized g); [reflexivity|].
  run. destruct (collection_stream remote); [reflexivity|].
  tidy_log. reflexivity.
Qed.

(** C6, as the script has it.  [get_past_qa_from_firestore] always returns
    a list, and no record in it has a native instant under "timestamp".
    When the query answers, the list is the stream with
    [normalize_timestamp] applied to each document, in order: a document
    whose timestamp is a native instant [t] comes back with the text
    [isoformat t] in its place and nothing else changed; every other
    document comes back as it was.  On a miss the decorated function
    returns the same list. *)
Theorem C6_no_native_instant_reaches_callers g remote w :
  ∃ (past_qas : list (gmap string (value datetime))) (evs : list (event datetime)),
    get_past_qa_from_firestore g remote w = (Done past_qas, logged evs w)
    ∧ (∀ qa v, qa ∈ past_qas → qa !! "timestamp" = Some v → is_datetime v = false)
    ∧ (∀ docs,
         store_uninitialized g = false →
         collection_stream remote = Returned docs →
         past_qas = normalize_timestamp <$> docs
         ∧ Forall2 (λ doc qa,
                      (∀ t, doc !! "timestamp" = Some (VDatetime t) →
                            qa = <["timestamp" := VStr (isoformat t)]> doc)
                      ∧ ((∀ t, doc !! "timestamp" ≠ Some (VDatetime t)) → qa = doc))
             docs past_qas)
    ∧ (data_get_past_qa_from_firestore (caches w) = None →
       (get_past_qa_from_firestore_cached g remote w).1 = Done past_qas).
Proof.
  assert (Hcached : ∀ past_qas w',
            get_past_qa_from_firestore g remote w = (Done past_qas, w') →
            data_get_past_qa_from_firestore (caches w) = None →
            (get_past_qa_from_firestore_cached g remote w).1 = Done past_qas).
  { intros past_qas w' Hrun Hmiss. unfold get_past_qa_from_firestore_cached.
    run. rewrite Hmiss, Hrun. reflexivity. }
  revert Hcached. rewrite get_past_qa_from_firestore_cases. intros Hcached.
  destruct (store_uninitialized g) eqn:Hu.
  { eexists [], _. split; [reflexivity|]. split; [set_solver|].
    split; [done|]. by eapply Hcached. }
  destruct (collection_stream remote) as [docs|e] eqn:Hs.
  2:{ eexists [], _. split; [reflexivity|]. split; [set_solver|].
      split; [done|]. by eapply Hcached. }
  eexists _, _. split; [reflexivity|]. split; [|split].
  - intros qa v (doc & -> & _)%list_elem_of_fmap. apply normalize_timestamp_no_datetime.
  - intros docs' _ [= <-]. split; [done|].
    apply Forall2_fmap_r, Forall2_same_length_lookup. split; [done|].
    intros i doc doc' Hd Hd'. rewrite Hd in Hd'. injection Hd' as <-.
    split; [apply normalize_timestamp_datetime | apply normalize_timestamp_other].
  - by eapply Hcached.
Qed.


(** *** Showing records *)

Lemma for_each_emit (evs : list (event datetime)) w :
  for_each evs emit w = (Done tt, logged evs w).
Proof.
  revert w. induction evs as [|e evs IH]; intros w; simpl.
  - by rewrite logged_nil.
  - run. change {| session := session w; caches := caches w; log := log w ++ [e] |}
      with (logged [e] w).
    rewrite IH, logged_logged. reflexivity.
Qed.

Lemma show_qa_run (qa : gmap string (value datetime)) evs w :
  qa_events qa = Some evs → show_qa qa w = (Done tt, logged evs w).
Proof. intros Hqa. unfold show_qa. rewrite Hqa. apply for_each_emit. Qed.

Lemma for_each_show_qa (qas : list (gmap string (value datetime))) evs w :
  page_events qas = Some evs → for_each qas show_qa w = (Done tt, logged evs w).
Proof.
  revert evs w. induction qas as [|qa qas IH]; intros evs w; simpl.
  - intros [= <-]. by rewrite logged_nil.
  - destruct (qa_events qa) as [e1|] eqn:Hqa; [|done]. simpl.
    destruct (page_events qas) as [e2|] eqn:Hrest; [|done]. simpl.
    intros [= <-]. run. rewrite (show_qa_run _ _ _ Hqa).
    rewrite (IH e2 _ eq_refl), logged_logged. reflexivity.
Qed.

Lemma qa_events_normalized (doc : gmap string (value datetime)) :
  is_Some (qa_events (normalize_timestamp doc)).
Proof.
  unfold qa_events, expander_label, asked_on.
  destruct (normalize_timestamp doc !! "timestamp") as [v|] eqn:Hts; [|by eexists].
  apply normalize_timestamp_no_datetime in Hts.
  destruct v as [s|t|]; [|done|by eexists].
  simpl. destruct (Py.truthy s); by eexists.
Qed.

Lemma page_events_is_Some (qas : list (gmap string (value datetime))) :
  Forall (λ qa, is_Some (qa_events qa)) qas → is_Some (page_events qas).
Proof.
  induction 1 as [|qa qas [e1 Hqa] _ [e2 IH]]; simpl; [by eexists|].
  rewrite Hqa, IH. by eexists.
Qed.

Lemma normalized_can_be_shown (docs : list (gmap string (value datetime))) :
  Forall (λ qa, is_Some (qa_events qa)) (normalize_timestamp <$> docs).
Proof. apply Forall_fmap, Forall_forall. intros doc _. apply qa_events_normalized. Qed.

Lemma qa_events_shape (qa : gmap string (value datetime)) evs :
  qa_events qa = Some evs →
  ∃ label, expander_label qa = Some label
           ∧ labels evs = [label]
           ∧ writes evs = [] ∧ prompts evs = []
           ∧ ∀ lv, messages lv evs = [].
Proof.
  unfold qa_events. destruct (expander_label qa) as [label|]; [|done]. simpl.
  intros [= <-]. exists label. repeat split; done.
Qed.

Lemma labels_app (a b : list (event datetime)) : labels (a ++ b) = labels a ++ labels b.
Proof. unfold labels. apply omap_app. Qed.

Lemma messages_app lv (a b : list (event datetime)) :
  messages lv (a ++ b) = messages lv a ++ messages lv b.
Proof. unfold messages. apply omap_app. Qed.

Lemma page_events_shape (qas : list (gmap string (value datetime))) evs :
  page_events qas = Some evs →
  Some <$> labels evs = expander_label <$> qas
  ∧ writes evs = [] ∧ prompts evs = []
  ∧ ∀ lv, messages lv evs = [].
Proof.
  revert evs. induction qas as [|qa qas IH]; intros evs; simpl.
  - intros [= <-]. repeat split; try done.
  - destruct (qa_events qa) as [e1|] eqn:Hqa; [|done]. simpl.
    destruct (page_events qas) as [e2|] eqn:Hrest; [|done]. simpl.
    intros [= <-].
    destruct (qa_events_shape _ _ Hqa) as (label & Hl & Hl1 & Hw1 & Hp1 & Hm1).
    destruct (IH _ eq_refl) as (Hl2 & Hw2 & Hp2 & Hm2).
    rewrite labels_app, writes_app, prompts_app, fmap_app, Hl1, Hl, Hl2, Hw1, Hw2, Hp1, Hp2.
    repeat split; try done. intros lv. by rewrite messages_app, Hm1, Hm2.
Qed.

(** *** Slices and page counts *)

Lemma slice_of_page {A} (l : list A) (p : Z) :
  1 ≤ p →
  Py.slice l ((p - 1) * items_per_page) ((p - 1) * items_per_page + items_per_page)
  = take 5 (drop (Z.to_nat ((p - 1) * 5)) l).
Proof.
  intros Hp. unfold Py.slice, Py.slice_index, items_per_page.
  assert (0 ≤ (p - 1) * 5) as Hs by lia.
  destruct ((p - 1) * 5 <? 0) eqn:E1; [apply Z.ltb_lt in E1; lia|].
  destruct ((p - 1) * 5 + 5 <? 0) eqn:E2; [apply Z.ltb_lt in E2; lia|].
  set (n := Z.to_nat ((p - 1) * 5)).
  assert ((p - 1) * 5 = Z.of_nat n) as -> by lia.
  destruct (decide (length l ≤ n)%nat) as [Hge|Hlt].
  - rewrite !Z.min_r by lia. rewrite Z.sub_diag. simpl.
    by rewrite (drop_ge l n) by done.
  - rewrite (Z.min_l (Z.of_nat n)) by lia. rewrite Nat2Z.id.
    destruct (decide (n + 5 ≤ length l)%nat) as [Hfull|Hpart].
    + rewrite Z.min_l by lia. f_equal. lia.
    + rewrite Z.min_r by lia.
      rewrite !take_ge; [done| |]; rewrite length_drop; lia.
Qed.

Lemma page_is_empty {A} (l : list A) (n : nat) :
  is_empty (take 5 (drop n l)) = true ↔ (length l ≤ n)%nat.
Proof.
  split.
  - intros He. destruct (decide (length l ≤ n)%nat) as [|Hlt]; [done|].
    assert (length (take 5 (drop n l)) ≠ 0%nat) as Hne
      by (rewrite length_take, length_drop; lia).
    by destruct (take 5 (drop n l)).
  - intros Hge. by rewrite drop_ge.
Qed.

(** [total_pages] is the ceiling of [N / 5]. *)
Lemma total_pages_is_ceiling (past_qas : list (gmap string (value datetime))) :
  let N := Z.of_nat (length past_qas) in
  5 * (total_pages_for past_qas - 1) < N ≤ 5 * total_pages_for past_qas.
Proof.
  unfold total_pages_for, items_per_page. simpl.
  pose proof (Z.div_mod (Z.of_nat (length past_qas) + 5 - 1) 5).
  pose proof (Z.mod_pos_bound (Z.of_nat (length past_qas) + 5 - 1) 5). lia.
Qed.


(** *** The history section *)

Lemma on_page_same (s : Session) p : history_page s = Some p → on_page p s = s.
Proof. destruct s. simpl. by intros ->. Qed.

Lemma page_controls_run total_pages clicked w :
  let p1 := after_previous clicked (page_number (session w)) in
  let p2 := after_next total_pages clicked p1 in
  page_controls total_pages clicked w =
    (Done tt,
     logged [WriteText (caption p1 total_pages)] (in_session (on_page p2 (session w)) w)).
Proof.
  unfold page_controls, page_number, after_next, after_previous. run.
  destruct (history_page (session w)) as [p|] eqn:Hp; simpl.
  - destruct clicked as [[]|]; simpl; rewrite ?Hp; simpl;
      repeat (match goal with |- context [if ?c then _ else _] => destruct c end; simpl);
      rewrite ?Hp; try reflexivity;
      by rewrite (on_page_same _ _ Hp).
  - destruct clicked as [[]|]; simpl;
      repeat (match goal with |- context [if ?c then _ else _] => destruct c end; simpl);
      reflexivity.
Qed.

Lemma show_page_run (past_qas : list (gmap string (value datetime))) p evs w :
  history_page (session w) = Some p →
  1 ≤ p →
  let current := take 5 (drop (Z.to_nat ((p - 1) * 5)) past_qas) in
  page_events current = Some evs →
  show_page past_qas w =
    if is_empty current && (1 <? p)
    then (Stop RerunException, in_session (on_page 1 (session w)) w)
    else (Done tt, logged evs w).
Proof.
  intros Hp Hp1 current Hevs. unfold show_page. run. rewrite Hp. simpl.
  rewrite slice_of_page by done. fold current.
  destruct (is_empty current && (1 <? p)); simpl; [reflexivity|].
  by apply for_each_show_qa.
Qed.


Lemma show_history_run (past_qas : list (gmap string (value datetime))) clicked evs w :
  past_qas ≠ [] →
  let total_pages := total_pages_for past_qas in
  let p1 := after_previous clicked (page_number (session w)) in
  let p2 := after_next total_pages clicked p1 in
  let current := take 5 (drop (Z.to_nat ((p2 - 1) * 5)) past_qas) in
  1 ≤ p2 →
  page_events current = Some evs →
  show_history past_qas clicked w =
    if is_empty current && (1 <? p2)
    then (Stop RerunException,
          logged [WriteText (caption p1 total_pages)] (in_session (on_page 1 (session w)) w))
    else (Done tt,
          logged (WriteText (caption p1 total_pages) :: evs)
            (in_session (on_page p2 (session w)) w)).
Proof.
  intros Hne total_pages p1 p2 current Hp2 Hevs.
  unfold show_history. destruct past_qas as [|qa rest]; [done|].
  cbn [is_empty]. fold total_pages.
  change ((page_controls total_pages clicked;; show_page (qa :: rest)) w)
    with (match page_controls total_pages clicked w with
          | (Done a, w') => show_page (qa :: rest) w'
          | (Stop i, w') => (Stop i, w')
          end).
  rewrite page_controls_run. fold p1 p2.
  rewrite (show_page_run _ p2 evs) by done. fold current.
  destruct (is_empty current && (1 <? p2)); [reflexivity|].
  by rewrite logged_logged.
Qed.

Lemma current_page_not_empty (past_qas : list (gmap string (value datetime))) p :
  1 ≤ p ≤ total_pages_for past_qas →
  is_empty (take 5 (drop (Z.to_nat ((p - 1) * 5)) past_qas)) = false.
Proof.
  intros Hp. pose proof (total_pages_is_ceiling past_qas) as Hc. simpl in Hc.
  apply not_true_is_false. rewrite page_is_empty. lia.
Qed.

Lemma page_number_in_session p (s : Session) w :
  page_number (session (in_session (on_page p s) w)) = p.
Proof. reflexivity. Qed.

(** One run of the history section at a page within range. *)
Lemma show_history_in_range (docs : list (gmap string (value datetime))) clicked w :
  let past_qas := normalize_timestamp <$> docs in
  let total_pages := total_pages_for past_qas in
  let p := page_number (session w) in
  1 ≤ p ≤ Z.max 1 total_pages →
  ∃ w',
    show_history past_qas clicked w = (Done tt, w')
    ∧ page_number (session w') =
        match clicked with
        | Some Previous => Z.max 1 (p - 1)
        | Some Next => Z.min (Z.max 1 total_pages) (p + 1)
        | _ => p
        end
    ∧ messages LvError (log w') = messages LvError (log w)
    ∧ writes (log w') = writes (log w)
    ∧ caches w' = caches w.
Proof.
  intros past_qas total_pages p Hp.
  destruct docs as [|doc docs].
  { assert (p = 1) as Hp1 by (change total_pages with 0 in Hp; lia).
    eexists. split; [reflexivity|]. simpl. fold p. rewrite Hp1.
    rewrite messages_app, writes_app. simpl. rewrite !app_nil_r.
    change total_pages with 0. by destruct clicked as [[]|]. }
  assert (past_qas ≠ []) as Hne by done.
  pose proof (total_pages_is_ceiling past_qas) as Hc. simpl in Hc.
  fold total_pages in Hc.
  assert (1 ≤ total_pages) as Htp.
  { unfold past_qas in Hc. rewrite length_fmap in Hc. simpl in Hc. lia. }
  set (p1 := after_previous clicked p).
  set (p2 := after_next total_pages clicked p1).
  assert (1 ≤ p2 ≤ total_pages ∧
          p2 = match clicked with
               | Some Previous => Z.max 1 (p - 1)
               | Some Next => Z.min (Z.max 1 total_pages) (p + 1)
               | _ => p
               end) as [Hp2 Hp2eq].
  { unfold p2, p1, after_next, after_previous.
    destruct clicked as [[]|]; simpl;
      repeat (match goal with |- context [?a <? ?b] => destruct (Z.ltb_spec a b) end);
      lia. }
  destruct (page_events_is_Some (take 5 (drop (Z.to_nat ((p2 - 1) * 5)) past_qas)))
    as [evs Hevs].
  { apply Forall_take, Forall_drop, normalized_can_be_shown. }
  pose proof (show_history_run past_qas clicked evs w Hne) as Hrun.
  simpl in Hrun. fold total_pages p p1 p2 in Hrun.
  specialize (Hrun (proj1 Hp2) Hevs).
  rewrite current_page_not_empty in Hrun by done. simpl in Hrun.
  eexists. split; [exact Hrun|].
  destruct (page_events_shape _ _ Hevs) as (_ & Hw & _ & Hm).
  simpl. split; [done|].
  rewrite messages_app, writes_app. simpl. rewrite Hm, Hw, !app_nil_r. done.
Qed.

Lemma run_to_end_done fuel (script : option button → App datetime unit) clicked w w' :
  script clicked w = (Done tt, w') →
  run_to_end (S fuel) script clicked w = Some (Done tt, w').
Proof. intros Hrun. simpl. by rewrite Hrun. Qed.

Lemma run_to_end_rerun fuel (script : option button → App datetime unit) clicked w w' :
  script clicked w = (Stop RerunException, w') →
  run_to_end (S fuel) script clicked w = run_to_end fuel script None w'.
Proof. intros Hrun. simpl. by rewrite Hrun. Qed.

(** One press at a page within range: a single run, no rerun. *)
Lemma pagination_step (docs : list (gmap string (value datetime))) b w :
  let past_qas := normalize_timestamp <$> docs in
  let total_pages := total_pages_for past_qas in
  let p := page_number (session w) in
  1 ≤ p ≤ Z.max 1 total_pages →
  ∃ w',
    run_to_end 2 (show_history past_qas) (Some b) w = Some (Done tt, w')
    ∧ page_number (session w') =
        match b with
        | Previous => Z.max 1 (p - 1)
        | Next => Z.min (Z.max 1 total_pages) (p + 1)
        | Generate => p
        end
    ∧ messages LvError (log w') = messages LvError (log w).
Proof.
  intros past_qas total_pages p Hp.
  destruct (show_history_in_range docs (Some b) w Hp) as (w' & Hrun & Hp' & Hm' & _).
  exists w'. split; [by apply run_to_end_done|]. split; [|done].
  rewrite Hp'. by destruct b.
Qed.

(** From any page [p >= 1] of a non-empty list, one interaction ends
    within range: a page past the end is brought back to page 1. *)
Lemma show_history_restores_range
    (doc : gmap string (value datetime)) docs clicked w :
  let past_qas := normalize_timestamp <$> (doc :: docs) in
  1 ≤ page_number (session w) →
  ∃ w',
    run_to_end 2 (show_history past_qas) clicked w = Some (Done tt, w')
    ∧ 1 ≤ page_number (session w') ≤ total_pages_for past_qas.
Proof.
  intros past_qas Hp.
  assert (past_qas ≠ []) as Hne by done.
  pose proof (total_pages_is_ceiling past_qas) as Hc. simpl in Hc.
  set (total_pages := total_pages_for past_qas) in *.
  assert (1 ≤ total_pages) as Htp.
  { unfold past_qas in Hc. rewrite length_fmap in Hc. simpl in Hc. lia. }
  set (p1 := after_previous clicked (page_number (session w))).
  set (p2 := after_next total_pages clicked p1).
  assert (1 ≤ p2) as Hp2.
  { unfold p2, p1, after_next, after_previous.
    destruct clicked as [[]|]; simpl;
      repeat (match goal with |- context [?a <? ?b] => destruct (Z.ltb_spec a b) end);
      lia. }
  destruct (page_events_is_Some (take 5 (drop (Z.to_nat ((p2 - 1) * 5)) past_qas)))
    as [evs Hevs].
  { apply Forall_take, Forall_drop, normalized_can_be_shown. }
  pose proof (show_history_run past_qas clicked evs w Hne) as Hrun.
  simpl in Hrun. fold total_pages p1 p2 in Hrun.
  specialize (Hrun Hp2 Hevs).
  destruct (is_empty (take 5 (drop (Z.to_nat ((p2 - 1) * 5)) past_qas))) eqn:Hempty;
    simpl in Hrun.
  - destruct (Z.ltb_spec 1 p2) as [Hlt|Hge].
    + set (w1 := logged [WriteText (caption p1 total_pages)]
                   (in_session (on_page 1 (session w)) w)) in *.
      destruct (show_history_in_range (doc :: docs) None w1) as (w' & Hrun' & Hp' & _).
      { unfold w1, page_number. simpl. lia. }
      exists w'. split.
      * rewrite (run_to_end_rerun 1 _ _ _ w1 Hrun). by apply run_to_end_done.
      * rewrite Hp'. unfold w1, page_number. simpl. fold past_qas total_pages. lia.
    + eexists. split; [by apply run_to_end_done|].
      unfold page_number. simpl. lia.
  - eexists. split; [by apply run_to_end_done|].
    unfold page_number. simpl.
    apply not_true_iff_false in Hempty. rewrite page_is_empty in Hempty.
    clear Hrun Hevs. unfold past_qas in Hempty, Hc.
    rewrite length_fmap in Hempty. rewrite ?length_fmap in Hc.
    simpl in Hempty, Hc. lia.
Qed.

(** *** The list the history section gets *)

Lemma get_past_qa_from_firestore_cached_normalized g remote w :
  history_cache_ok (caches w) →
  ∃ docs w',
    get_past_qa_from_firestore_cached g remote w =
      (Done (normalize_timestamp <$> docs), w')
    ∧ history_cache_ok (caches w')
    ∧ session w' = session w.
Proof.
  unfold history_cache_ok, get_past_qa_from_firestore_cached. run.
  destruct (data_get_past_qa_from_firestore (caches w)) as [past_qas|] eqn:Hc.
  - intros [docs ->]. exists docs, w. rewrite Hc. split; [done|]. split; [|done]. by exists docs.
  - intros _. rewrite get_past_qa_from_firestore_cases.
    destruct (store_uninitialized g).
    { exists []. eexists. split; [reflexivity|]. split; [by exists []|done]. }
    destruct (collection_stream remote) as [docs|e].
    + exists docs. eexists. split; [reflexivity|]. split; [by exists docs|done].
    + exists []. eexists. split; [reflexivity|]. split; [by exists []|done].
Qed.

(** With the store connected the history section shows a list of that
    form, whether it comes from the cache or from the store. *)
Lemma history_section_shows_normalized g remote clicked w :
  truthy_flag (firebase_initialized g) = true →
  history_cache_ok (caches w) →
  ∃ docs w',
    get_past_qa_from_firestore_cached g remote w =
      (Done (normalize_timestamp <$> docs), w')
    ∧ session w' = session w
    ∧ history_section g remote clicked w =
        show_history (normalize_timestamp <$> docs) clicked w'.
Proof.
  intros Hfi Hok.
  destruct (get_past_qa_from_firestore_cached_normalized g remote w Hok)
    as (docs & w' & Hrun & _ & Hs).
  exists docs, w'. split; [done|]. split; [done|].
  unfold history_section. rewrite Hfi.
  unfold mbind at 1, App_bind. by rewrite Hrun.
Qed.

(** C3.  Take [N] stored records, [total_pages] computed by line 224, and a
    session whose page is within [1 .. max 1 total_pages].  Then
    [total_pages] is the ceiling of [N / 5]; every sequence of presses runs
    to its end (each press is one run, and two runs of fuel are enough),
    leaves the page within the same range and shows no error; Next on the
    last page and Previous on page 1 leave the page where it is. *)
Theorem C3_page_stays_in_range (docs : list (gmap string (value datetime))) presses w :
  let past_qas := normalize_timestamp <$> docs in
  let N := Z.of_nat (length docs) in
  let total_pages := total_pages_for past_qas in
  1 ≤ page_number (session w) ≤ Z.max 1 total_pages →
  5 * (total_pages - 1) < N ≤ 5 * total_pages
  ∧ (∃ w',
       press_all 2 (show_history past_qas) presses w = Some (Done tt, w')
       ∧ 1 ≤ page_number (session w') ≤ Z.max 1 total_pages
       ∧ messages LvError (log w') = messages LvError (log w))
  ∧ (∃ w',
       run_to_end 2 (show_history past_qas) (Some Next)
         (in_session (on_page (Z.max 1 total_pages) (session w)) w) = Some (Done tt, w')
       ∧ page_number (session w') = Z.max 1 total_pages
       ∧ messages LvError (log w') = messages LvError (log w))
  ∧ (∃ w',
       run_to_end 2 (show_history past_qas) (Some Previous)
         (in_session (on_page 1 (session w)) w) = Some (Done tt, w')
       ∧ page_number (session w') = 1
       ∧ messages LvError (log w') = messages LvError (log w)).
Proof.
  intros past_qas N total_pages Hp. subst N.
  split.
  { pose proof (total_pages_is_ceiling past_qas) as Hc. simpl in Hc.
    unfold past_qas in Hc at 2 3. rewrite length_fmap in Hc. done. }
  assert (Hstep : ∀ b w0,
            1 ≤ page_number (session w0) ≤ Z.max 1 total_pages →
            ∃ w',
              run_to_end 2 (show_history past_qas) (Some b) w0 = Some (Done tt, w')
              ∧ page_number (session w') =
                  match b with
                  | Previous => Z.max 1 (page_number (session w0) - 1)
                  | Next => Z.min (Z.max 1 total_pages) (page_number (session w0) + 1)
                  | Generate => page_number (session w0)
                  end
              ∧ messages LvError (log w') = messages LvError (log w0)).
  { intros b w0 Hw0.
    destruct (pagination_step docs b w0 Hw0) as (w' & Hrun & Hp' & Hm').
    by exists w'. }
  clearbody total_pages past_qas.
  split.
  { revert w Hp. induction presses as [|b presses IH]; intros w Hp.
    - eexists. split; [reflexivity|]. done.
    - destruct (Hstep b w Hp) as (w1 & Hrun & Hp1 & Hm1).
      assert (1 ≤ page_number (session w1) ≤ Z.max 1 total_pages) as Hin
        by (rewrite Hp1; destruct b; lia).
      destruct (IH w1 Hin) as (w' & Hrest & Hp' & Hm').
      exists w'. cbn [press_all]. rewrite Hrun. split; [done|].
      split; [done|]. by rewrite Hm'. }
  split.
  - destruct (Hstep Next (in_session (on_page (Z.max 1 total_pages) (session w)) w))
      as (w' & Hrun & Hp' & Hm'); [rewrite page_number_in_session; lia|].
    exists w'. split; [done|]. split; [|done].
    rewrite Hp', page_number_in_session. lia.
  - destruct (Hstep Previous (in_session (on_page 1 (session w)) w))
      as (w' & Hrun & Hp' & Hm'); [rewrite page_number_in_session; lia|].
    exists w'. split; [done|]. split; [|done].
    rewrite Hp', page_number_in_session. lia.
Qed.


(** C4, as the script has it.  Let [p >= 1] be the page of the session and
    [current] the records of the history list with indices
    [(p-1)*5 .. p*5).  On a non-empty list the section shows the caption and
    then exactly the records of [current], in order; if [current] is empty
    while [p > 1] it shows no record, sets the page to 1 and leaves through
    [st.rerun()], and the run that follows ends on page 1.  On an empty
    list it shows the notice that there is no history and nothing else: the
    page number stays [p] and no rerun is asked for. *)
Theorem C4_page_shows_its_slice (docs : list (gmap string (value datetime))) p w :
  1 ≤ p →
  let past_qas := normalize_timestamp <$> docs in
  let current := take 5 (drop (Z.to_nat ((p - 1) * 5)) past_qas) in
  let w_p := in_session (on_page p (session w)) w in
  let shown : event datetime := WriteText (caption p (total_pages_for past_qas)) in
  (∀ i : nat,
     current !! i =
       if decide (i < 5)%nat then past_qas !! (Z.to_nat ((p - 1) * 5) + i)%nat else None)
  ∧ ∃ evs,
      page_events current = Some evs
      ∧ Some <$> labels evs = expander_label <$> current
      ∧ match docs with
        | [] =>
            show_history past_qas None w_p =
              (Done tt,
               logged [Message Main LvInfo
                         "No past questions and solutions found in the history."] w_p)
        | _ :: _ =>
            show_history past_qas None w_p =
              (if is_empty current && (1 <? p)
               then (Stop RerunException,
                     logged [shown] (in_session (on_page 1 (session w)) w))
               else (Done tt, logged (shown :: evs) w_p))
            ∧ ∃ w',
                run_to_end 2 (show_history past_qas) None w_p = Some (Done tt, w')
                ∧ page_number (session w') =
                    if is_empty current && (1 <? p) then 1 else p
        end.
Proof.
  intros Hp past_qas current w_p shown.
  split.
  { intros i. unfold current. rewrite lookup_take, lookup_drop. done. }
  destruct (page_events_is_Some current) as [evs Hevs].
  { apply Forall_take, Forall_drop, normalized_can_be_shown. }
  exists evs. split; [done|].
  split; [by destruct (page_events_shape _ _ Hevs)|].
  destruct docs as [|doc docs]; [reflexivity|].
  assert (past_qas ≠ []) as Hne by done.
  pose proof (show_history_run past_qas None evs w_p Hne) as Hrun.
  simpl in Hrun. unfold page_number in Hrun. simpl in Hrun.
  specialize (Hrun Hp Hevs). fold past_qas current shown w_p in Hrun.
  split; [exact Hrun|].
  destruct (is_empty current && (1 <? p)) eqn:Hempty.
  - set (w1 := logged [shown] (in_session (on_page 1 (session w)) w)) in *.
    destruct (show_history_in_range (doc :: docs) None w1) as (w' & Hrun' & Hp' & _).
    { unfold w1, page_number. simpl. lia. }
    exists w'. split; [|by rewrite Hp'].
    rewrite (run_to_end_rerun 1 _ _ _ w1 Hrun). by apply run_to_end_done.
  - eexists. split; [by apply run_to_end_done|]. reflexivity.
Qed.

(** *** Credentials *)

(** The ways [init_firebase] can go, by what the environment answers. *)
Lemma init_firebase_cases (env : FirebaseSetup) w :
  let failed e :=
    (Done (None, Some false),
     logged [Message Main LvError ("Failed to initialize Firebase: " +:+ e)] w) in
  let failed_after loaded e :=
    (Done (None, Some false),
     logged [Message Main LvSuccess loaded;
             Message Main LvError ("Failed to initialize Firebase: " +:+ e)] w) in
  let load source loaded :=
    match certificate env source with
    | Raised e => failed e
    | Returned _ =>
        match initialize_app env source with
        | Raised e => failed_after loaded e
        | Returned _ =>
            match firestore_client_call env with
            | Raised e => failed_after loaded e
            | Returned handle =>
                (Done (Some handle, Some true),
                 logged [Message Main LvSuccess loaded] w)
            end
        end
    end in
  init_firebase env w =
    if apps_initialized env then
      match firestore_client_call env with
      | Raised e => failed e
      | Returned handle => (Done (Some handle, Some true), w)
      end
    else
      match secrets_firebase_credentials env with
      | Raised e => failed e
      | Returned true => load FromSecrets "Firebase initialized from Streamlit secrets."
      | Returned false =>
          if config_file_exists env
          then load FromFile "Firebase initialized from local firebase_config.json."
          else (Done (None, None),
                logged [Message Main LvError configuration_not_found] w)
      end.
Proof.
  unfold init_firebase, load_credentials, connect_client, init_failed.
  destruct (apps_initialized env).
  { destruct (firestore_client_call env); reflexivity. }
  destruct (secrets_firebase_credentials env) as [[]|e]; [| |reflexivity].
  - destruct (certificate env FromSecrets); [|reflexivity]. run.
    destruct (initialize_app env FromSecrets); [|tidy_log; reflexivity].
    destruct (firestore_client_call env); [reflexivity|tidy_log; reflexivity].
  - destruct (config_file_exists env); [|reflexivity].
    destruct (certificate env FromFile); [|reflexivity]. run.
    destruct (initialize_app env FromFile); [|tidy_log; reflexivity].
    destruct (firestore_client_call env); [reflexivity|tidy_log; reflexivity].
Qed.

Lemma init_firebase_done (env : FirebaseSetup) w :
  ∃ pair (evs : list (event datetime)),
    init_firebase env w = (Done pair, logged evs w)
    ∧ writes evs = [] ∧ prompts evs = [] ∧ queries evs = 0%nat.
Proof.
  rewrite init_firebase_cases. cbv zeta.
  assert (Hnone : ∀ pair : option firestore_client * option bool,
            ∃ pair' (evs : list (event datetime)),
            (Done pair, w) = (Done pair', logged evs w)
            ∧ writes evs = [] ∧ prompts evs = [] ∧ queries evs = 0%nat).
  { intros pair. exists pair, []. by rewrite logged_nil. }
  repeat (match goal with
          | |- context [match ?x with _ => _ end] => destruct x
          | |- context [if ?x then _ else _] => destruct x
          end);
    try apply Hnone; eexists _, _; (split; [reflexivity|done]).
Qed.

(** X1.  [init_firebase] never raises and gives one of three pairs: a
    client with [True], [(None, None)] or [(None, False)].  The client is
    there exactly when the flag is [True], so for the names of line 46 the
    test [not firebase_initialized or not db] is the test
    [not firebase_initialized].  [(None, None)] comes exactly when no app
    exists, the secrets hold no credentials and the local file is missing,
    with the configuration error as the only message; [(None, False)] always
    ends with the error "Failed to initialize Firebase: ...". *)
Theorem X1_init_firebase_outcomes (env : FirebaseSetup) w :
  ∃ handle flag (evs : list (event datetime)),
    init_firebase env w = (Done (handle, flag), logged evs w)
    ∧ (present handle = true ↔ flag = Some true)
    ∧ (∀ api_key m,
         store_uninitialized (globals_of handle flag api_key m) = negb (truthy_flag flag))
    ∧ (flag = Some true → firestore_client_call env = Returned FirestoreClient)
    ∧ (flag = None ↔
         apps_initialized env = false
         ∧ secrets_firebase_credentials env = Returned false
         ∧ config_file_exists env = false)
    ∧ (flag = None → evs = [Message Main LvError configuration_not_found])
    ∧ (flag = Some false →
         ∃ e, last evs = Some (Message Main LvError ("Failed to initialize Firebase: " +:+ e))).
Proof.
  pose proof (init_firebase_cases env w) as Hrun. cbv zeta in Hrun.
  destruct (apps_initialized env) eqn:Happs.
  { destruct (firestore_client_call env) as [[]|e] eqn:Hclient.
    - exists (Some FirestoreClient), (Some true), []. rewrite logged_nil.
      split; [done|]. repeat split; try done. by intros (? & _).
    - eexists None, (Some false), _. split; [exact Hrun|].
      repeat split; try done. by intros (? & _). intros _. by exists e. }
  destruct (secrets_firebase_credentials env) as [[]|e] eqn:Hsecrets.
  - destruct (certificate env FromSecrets) as [[]|e].
    2:{ eexists None, (Some false), _. split; [exact Hrun|].
        repeat split; try done. by intros (_ & ? & _). intros _. by exists e. }
    destruct (initialize_app env FromSecrets) as [[]|e].
    2:{ eexists None, (Some false), _. split; [exact Hrun|].
        repeat split; try done. by intros (_ & ? & _). intros _. by exists e. }
    destruct (firestore_client_call env) as [[]|e].
    + eexists (Some FirestoreClient), (Some true), _. split; [exact Hrun|].
      repeat split; try done. by intros (_ & ? & _).
    + eexists None, (Some false), _. split; [exact Hrun|].
      repeat split; try done. by intros (_ & ? & _). intros _. by exists e.
  - destruct (config_file_exists env) eqn:Hfile.
    2:{ eexists None, None, _. split; [exact Hrun|]. repeat split; try done. }
    destruct (certificate env FromFile) as [[]|e].
    2:{ eexists None, (Some false), _. split; [exact Hrun|].
        repeat split; try done. by intros (_ & _ & ?). intros _. by exists e. }
    destruct (initialize_app env FromFile) as [[]|e].
    2:{ eexists None, (Some false), _. split; [exact Hrun|].
        repeat split; try done. by intros (_ & _ & ?). intros _. by exists e. }
    destruct (firestore_client_call env) as [[]|e].
    + eexists (Some FirestoreClient), (Some true), _. split; [exact Hrun|].
      repeat split; try done. by intros (_ & _ & ?).
    + eexists None, (Some false), _. split; [exact Hrun|].
      repeat split; try done. by intros (_ & _ & ?). intros _. by exists e.
  - eexists None, (Some false), _. split; [exact Hrun|].
    repeat split; try done. by intros (_ & ? & _). intros _. by exists e.
Qed.

(** X2.  Credentials in the secrets win over the local file: when no app
    exists yet and the secrets hold credentials, whether
    [firebase_config.json] exists and what it holds makes no difference. *)
Theorem X2_secrets_before_file (env env' : FirebaseSetup) w :
  apps_initialized env = false →
  apps_initialized env' = false →
  secrets_firebase_credentials env = Returned true →
  secrets_firebase_credentials env' = Returned true →
  certificate env FromSecrets = certificate env' FromSecrets →
  initialize_app env FromSecrets = initialize_app env' FromSecrets →
  firestore_client_call env = firestore_client_call env' →
  init_firebase env w = init_firebase env' w.
Proof.
  intros Ha Ha' Hs Hs' Hc Hi Hf. rewrite !init_firebase_cases. cbv zeta.
  by rewrite Ha, Ha', Hs, Hs', Hc, Hi, Hf.
Qed.

(** X3.  When a Firebase app already exists, nothing but
    [firestore.client()] matters: secrets, local file and certificates are
    not looked at, no success message is shown, and the result is the
    client, or [(None, False)] with the fault of that call. *)
Theorem X3_existing_app_skips_credentials (env env' : FirebaseSetup) w :
  apps_initialized env = true →
  apps_initialized env' = true →
  firestore_client_call env = firestore_client_call env' →
  init_firebase env w = init_firebase env' w
  ∧ init_firebase env w =
      match firestore_client_call env with
      | Returned handle => (Done (Some handle, Some true), w)
      | Raised e =>
          (Done (None, Some false),
           logged [Message Main LvError ("Failed to initialize Firebase: " +:+ e)] w)
      end.
Proof.
  intros Ha Ha' Hf. rewrite !init_firebase_cases. cbv zeta.
  by rewrite Ha, Ha', Hf.
Qed.

(** X4.  The pair [init_firebase] returned is kept for the life of the
    process, a failed one as well: once the decorated function has run,
    every later call gives the same pair whatever the environment has
    become, and touches neither the caches nor the session. *)
Theorem X4_init_firebase_result_is_kept (env env' : FirebaseSetup) w :
  resource_init_firebase (caches w) = None →
  ∃ pair w1,
    init_firebase_cached (init_firebase env) w = (Done pair, w1)
    ∧ (init_firebase env w).1 = Done pair
    ∧ resource_init_firebase (caches w1) = Some pair
    ∧ ∀ w2,
        resource_init_firebase (caches w2) = Some pair →
        ∃ w3,
          init_firebase_cached (init_firebase env') w2 = (Done pair, w3)
          ∧ caches w3 = caches w2 ∧ session w3 = session w2.
Proof.
  intros Hmiss.
  destruct (init_firebase_done env w) as (pair & evs & Hrun & _).
  exists pair. eexists. split.
  { unfold init_firebase_cached. run. rewrite Hmiss, Hrun. reflexivity. }
  split; [by rewrite Hrun|]. split; [done|].
  intros w2 Hhit. exists w2. split; [|done].
  unfold init_firebase_cached. run. by rewrite Hhit.
Qed.

(** *** The generate button, branch by branch *)

Lemma on_generate_cases g remote user_question w solution
    (gevs : list (event datetime)) :
  truthy_key (GEMINI_API_KEY g) = true →
  Py.strip user_question ≠ EmptyString →
  (∀ w0, generate_solution g remote user_question w0 = (Done solution, logged gevs w0)) →
  let generated := {| current_question := user_question;
                      current_solution := solution;
                      solution_generated := true;
                      history_page := history_page (session w) |} in
  let cleared := {| resource_init_firebase := resource_init_firebase (caches w);
                    data_get_gemini_api_key := None;
                    data_get_past_qa_from_firestore := None |} in
  let doc := qa_document user_question solution in
  let ended c (evs : list (event datetime)) :=
    (Done tt, {| session := generated; caches := c; log := log w ++ gevs ++ evs |}) in
  on_generate g remote user_question w =
    if Py.truthy solution && negb (Py.startswith solution failure_sentinel) then
      if truthy_flag (firebase_initialized g) then
        if store_uninitialized g then
          ended (caches w)
            [Message Main LvError "Firebase not initialized. Cannot save data.";
             Message Main LvError "Failed to save question and solution to history."]
        else
          match collection_add remote doc with
          | Returned _ =>
              ended cleared
                [CollectionAdd doc;
                 Message Main LvSuccess "Question and solution saved to history!"]
          | Raised e =>
              ended (caches w)
                [CollectionAdd doc;
                 Message Main LvError ("Error saving to Firestore: " +:+ e);
                 Message Main LvError "Failed to save question and solution to history."]
          end
      else
        ended (caches w)
          [Message Main LvWarning "Firebase not initialized. Solution not saved to history."]
    else
      ended (caches w)
        [Message Main LvError "Solution generation failed. Not saved to history."].
Proof.
  intros Hkey Hq Hgen generated cleared doc ended.
  pose proof (strip_nonempty _ Hq) as Hq'. apply truthy_true in Hq, Hq'.
  unfold on_generate. rewrite Hkey, Hq. run. rewrite Hgen. simpl.
  fold generated.
  destruct (Py.truthy solution) eqn:Hsol; simpl;
    [|unfold ended; simpl; by rewrite <- ?app_assoc].
  destruct (Py.startswith solution failure_sentinel); simpl;
    [unfold ended; simpl; by rewrite <- ?app_assoc|].
  destruct (truthy_flag (firebase_initialized g)); simpl;
    [|unfold ended; simpl; by rewrite <- ?app_assoc].
  rewrite save_qa_to_firestore_cases, Hq', Hsol. simpl.
  destruct (store_uninitialized g); simpl;
    [unfold ended; simpl; by rewrite <- ?app_assoc|].
  fold doc. destruct (collection_add remote doc); simpl;
    unfold ended; simpl; by rewrite <- ?app_assoc.
Qed.

Lemma queries_app (a b : list (event datetime)) : queries (a ++ b) = (queries a + queries b)%nat.
Proof. unfold queries. by rewrite omap_app, length_app. Qed.

(** The generator asks the model at most once and does nothing else. *)
Lemma generate_solution_events g remote question :
  ∃ (solution : string) (evs : list (event datetime)),
    (∀ w, generate_solution g remote question w = (Done solution, logged evs w))
    ∧ writes evs = []
    ∧ (length (prompts evs) ≤ 1)%nat
    ∧ queries evs = 0%nat
    ∧ messages LvWarning evs = []
    ∧ messages LvSuccess evs = [].
Proof.
  unfold generate_solution.
  destruct (present (model g)); simpl.
  2:{ exists model_not_initialized, []. split; [|by simpl; auto with lia].
      intros w. by rewrite logged_nil. }
  destruct (Py.truthy question); simpl.
  2:{ exists please_enter_a_question, []. split; [|by simpl; auto with lia].
      intros w. by rewrite logged_nil. }
  run. destruct (generate_content remote (prompt_for question)) as [text|e].
  - eexists text, _. split; [intros w; reflexivity|]. simpl. auto with lia.
  - eexists (failure_text e), _. split; [intros w; tidy_log; reflexivity|].
    simpl. auto with lia.
Qed.

(** X5.  Whatever the input and whatever the services answer, the handler
    of the generate button ends normally; it asks the model at most once,
    calls [add] at most once and never queries the collection; it leaves
    the page number and the [init_firebase] table alone; the session is
    either untouched or holds the input as typed with the generated flag
    set; a document handed to [add] is exactly the question and the solution
    the session now shows, both non-empty; the data caches are emptied only
    together with a write and the success message; and the warning of
    [save_qa_to_firestore] about an empty field never appears. *)
Theorem X5_on_generate_frame g remote user_question w :
  ∃ w' (evs : list (event datetime)),
    on_generate g remote user_question w = (Done tt, w')
    ∧ log w' = log w ++ evs
    ∧ (length (prompts evs) ≤ 1)%nat
    ∧ (length (writes evs) ≤ 1)%nat
    ∧ queries evs = 0%nat
    ∧ history_page (session w') = history_page (session w)
    ∧ resource_init_firebase (caches w') = resource_init_firebase (caches w)
    ∧ (session w' = session w
       ∨ (current_question (session w') = user_question
          ∧ solution_generated (session w') = true))
    ∧ (∀ doc, doc ∈ writes evs →
         doc = qa_document user_question (current_solution (session w'))
         ∧ user_question ≠ EmptyString
         ∧ current_solution (session w') ≠ EmptyString)
    ∧ (caches w' = caches w
       ∨ (data_get_past_qa_from_firestore (caches w') = None
          ∧ data_get_gemini_api_key (caches w') = None
          ∧ length (writes evs) = 1%nat
          ∧ "Question and solution saved to history!" ∈ messages LvSuccess evs))
    ∧ ("Question or solution is empty. Nothing to save." ∉ messages LvWarning evs).
Proof.
  destruct (truthy_key (GEMINI_API_KEY g)) eqn:Hkey.
  2:{ eexists _, _. split; [unfold on_generate; rewrite Hkey; reflexivity|].
      simpl. split; [reflexivity|]. repeat split; auto with lia; try set_solver. }
  destruct (Py.truthy (Py.strip user_question)) eqn:Hq.
  2:{ eexists _, _. split; [unfold on_generate; rewrite Hkey, Hq; reflexivity|].
      simpl. split; [reflexivity|]. repeat split; auto with lia; try set_solver. }
  apply truthy_true in Hq.
  destruct (generate_solution_events g remote user_question)
    as (solution & gevs & Hgen & Hw & Hp & Hqs & Hwarn & Hsucc).
  rewrite (on_generate_cases g remote user_question w solution gevs Hkey Hq Hgen).
  cbv zeta.
  pose proof (strip_nonempty _ Hq) as Hq'.
  assert (Hfin : ∀ c (tail : list (event datetime)),
            writes tail = [] →
            queries tail = 0%nat →
            prompts tail = [] →
            c = caches w →
            ("Question or solution is empty. Nothing to save."
               ∉ messages LvWarning tail) →
            ∃ w' (evs : list (event datetime)),
              (Done tt,
               {| session := {| current_question := user_question;
                                current_solution := solution;
                                solution_generated := true;
                                history_page := history_page (session w) |};
                  caches := c; log := log w ++ gevs ++ tail |}) = (Done tt, w')
              ∧ log w' = log w ++ evs
              ∧ (length (prompts evs) ≤ 1)%nat
              ∧ (length (writes evs) ≤ 1)%nat
              ∧ queries evs = 0%nat
              ∧ history_page (session w') = history_page (session w)
              ∧ resource_init_firebase (caches w') = resource_init_firebase (caches w)
              ∧ (session w' = session w
                 ∨ (current_question (session w') = user_question
                    ∧ solution_generated (session w') = true))
              ∧ (∀ doc, doc ∈ writes evs →
                   doc = qa_document user_question (current_solution (session w'))
                   ∧ user_question ≠ EmptyString
                   ∧ current_solution (session w') ≠ EmptyString)
              ∧ (caches w' = caches w
                 ∨ (data_get_past_qa_from_firestore (caches w') = None
                    ∧ data_get_gemini_api_key (caches w') = None
                    ∧ length (writes evs) = 1%nat
                    ∧ "Question and solution saved to history!" ∈ messages LvSuccess evs))
              ∧ ("Question or solution is empty. Nothing to save."
                   ∉ messages LvWarning evs)).
  { intros c tail Htw Htq Htp -> Hnot.
    eexists _, (gevs ++ tail). split; [reflexivity|]. simpl.
    rewrite ?prompts_app, ?writes_app, ?queries_app, ?messages_app,
      ?Hw, ?Htw, ?Hqs, ?Htq, ?Htp, ?Hwarn, ?Hsucc.
    rewrite ?app_nil_r. simpl.
    repeat split; auto with lia; try set_solver. }
  destruct (Py.truthy solution) eqn:Hsol; simpl; [|apply Hfin; try done; not_shown].
  destruct (Py.startswith solution failure_sentinel); simpl;
    [apply Hfin; try done; not_shown|].
  destruct (truthy_flag (firebase_initialized g)); simpl;
    [|apply Hfin; try done; not_shown].
  destruct (store_uninitialized g); simpl; [apply Hfin; try done; not_shown|].
  apply truthy_true in Hsol.
  destruct (collection_add remote _) as [[]|e]; simpl.
  - eexists _, (gevs ++ [CollectionAdd (qa_document user_question solution);
                         Message Main LvSuccess "Question and solution saved to history!"]).
    split; [reflexivity|]. simpl.
    rewrite prompts_app, writes_app, queries_app, !messages_app, Hw, Hqs, Hwarn, Hsucc.
    simpl. rewrite app_nil_r.
    repeat split; auto with lia; try set_solver.
    all: try (intros doc ->%list_elem_of_singleton; done).
    all: try (right; repeat split; try done; set_solver).
  - eexists _, (gevs ++ [CollectionAdd (qa_document user_question solution);
                         Message Main LvError ("Error saving to Firestore: " +:+ e);
                         Message Main LvError
                           "Failed to save question and solution to history."]).
    split; [reflexivity|]. simpl.
    rewrite prompts_app, writes_app, queries_app, !messages_app, Hw, Hqs, Hwarn.
    simpl. rewrite app_nil_r.
    repeat split; auto with lia; try set_solver.
    all: try (intros doc ->%list_elem_of_singleton; done).
Qed.

(** X6.  Generation succeeded but the store is not initialized: the session
    shows the solution, the only message of the handler is the warning that
    it was not saved, [add] is not called and the caches stay as they
    were. *)
Theorem X6_solution_without_store g remote user_question w solution w1 :
  truthy_key (GEMINI_API_KEY g) = true →
  Py.strip user_question ≠ EmptyString →
  generate_solution g remote user_question w = (Done solution, w1) →
  solution ≠ EmptyString →
  Py.startswith solution failure_sentinel = false →
  truthy_flag (firebase_initialized g) = false →
  on_generate g remote user_question w =
    (Done tt,
     {| session := {| current_question := user_question;
                      current_solution := solution;
                      solution_generated := true;
                      history_page := history_page (session w) |};
        caches := caches w;
        log := log w1 ++
               [Message Main LvWarning
                  "Firebase not initialized. Solution not saved to history."] |})
  ∧ writes (log w1) = writes (log w).
Proof.
  intros Hkey Hq Hrun Hsol Hsent Hfi.
  destruct (generate_solution_events g remote user_question)
    as (sol & gevs & Hgen & Hw & _).
  rewrite Hgen in Hrun. injection Hrun as -> <-.
  rewrite (on_generate_cases g remote user_question w solution gevs Hkey Hq Hgen).
  cbv zeta. apply truthy_true in Hsol. rewrite Hsol, Hsent, Hfi. simpl.
  split; [by rewrite app_assoc|].
  by rewrite writes_app, Hw, app_nil_r.
Qed.

(** X7.  Generation succeeded, the store is initialized, and [add] raises:
    the handler shows the fault and then "Failed to save question and
    solution to history."; the session still shows the solution; and the
    data caches are not emptied, so the history keeps being read from the
    cache. *)
Theorem X7_save_fault_keeps_caches g remote user_question w solution w1 e :
  truthy_key (GEMINI_API_KEY g) = true →
  Py.strip user_question ≠ EmptyString →
  generate_solution g remote user_question w = (Done solution, w1) →
  solution ≠ EmptyString →
  Py.startswith solution failure_sentinel = false →
  store_uninitialized g = false →
  collection_add remote (qa_document user_question solution) = Raised e →
  on_generate g remote user_question w =
    (Done tt,
     {| session := {| current_question := user_question;
                      current_solution := solution;
                      solution_generated := true;
                      history_page := history_page (session w) |};
        caches := caches w;
        log := log w1 ++
               [CollectionAdd (qa_document user_question solution);
                Message Main LvError ("Error saving to Firestore: " +:+ e);
                Message Main LvError
                  "Failed to save question and solution to history."] |}).
Proof.
  intros Hkey Hq Hrun Hsol Hsent Hu Hadd.
  destruct (generate_solution_events g remote user_question)
    as (sol & gevs & Hgen & _).
  rewrite Hgen in Hrun. injection Hrun as -> <-.
  assert (truthy_flag (firebase_initialized g) = true) as Hfi.
  { unfold store_uninitialized in Hu. apply orb_false_elim in Hu as [Hu _].
    by apply negb_false_iff in Hu. }
  rewrite (on_generate_cases g remote user_question w solution gevs Hkey Hq Hgen).
  cbv zeta. apply truthy_true in Hsol. rewrite Hsol, Hsent, Hfi, Hu, Hadd. simpl.
  by rewrite app_assoc.
Qed.

(** X8.  An answer of the model that is the empty text counts as a failed
    generation although nothing raised: the handler reports "Solution
    generation failed. Not saved to history.", calls [add] not at all, and
    the session holds the empty solution with the generated flag set. *)
Theorem X8_empty_answer_is_a_failure g remote user_question w :
  truthy_key (GEMINI_API_KEY g) = true →
  Py.strip user_question ≠ EmptyString →
  present (model g) = true →
  generate_content remote (prompt_for user_question) = Returned EmptyString →
  on_generate g remote user_question w =
    (Done tt,
     {| session := {| current_question := user_question;
                      current_solution := EmptyString;
                      solution_generated := true;
                      history_page := history_page (session w) |};
        caches := caches w;
        log := log w ++
               [GenerateContent (prompt_for user_question);
                Message Main LvError
                  "Solution generation failed. Not saved to history."] |}).
Proof.
  intros Hkey Hq Hm Hanswer.
  pose proof (strip_nonempty _ Hq) as Hq'. apply truthy_true in Hq'.
  assert (Hgen : ∀ w0, generate_solution g remote user_question w0 =
                         (Done EmptyString,
                          logged [GenerateContent (prompt_for user_question)] w0)).
  { intros w0. unfold generate_solution. rewrite Hm, Hq'. run. by rewrite Hanswer. }
  by rewrite (on_generate_cases g remote user_question w _ _ Hkey Hq Hgen).
Qed.

(** *** The history list and its cache *)

Lemma get_past_qa_from_firestore_result g remote w :
  ∃ past_qas (evs : list (event datetime)),
    get_past_qa_from_firestore g remote w = (Done past_qas, logged evs w)
    ∧ (queries evs ≤ 1)%nat
    ∧ writes evs = [] ∧ prompts evs = []
    ∧ (∀ w0, (get_past_qa_from_firestore g remote w0).1 = Done past_qas).
Proof.
  assert (Hany : ∀ w0, get_past_qa_from_firestore g remote w0 =
                         (if store_uninitialized g then
                            (Done [], logged [Message Main LvError
                               "Firebase not initialized. Cannot retrieve data."] w0)
                          else
                            match collection_stream remote with
                            | Returned docs =>
                                (Done (normalize_timestamp <$> docs), logged [QueryStream] w0)
                            | Raised e =>
                                (Done [], logged [QueryStream;
                                                  Message Main LvError
                                                    ("Error retrieving from Firestore: " +:+ e)] w0)
                            end))
    by (intros w0; apply get_past_qa_from_firestore_cases).
  destruct (store_uninitialized g).
  { eexists _, _. split; [apply Hany|]. repeat split; auto with lia.
    intros w0. by rewrite Hany. }
  destruct (collection_stream remote) as [docs|e].
  - eexists _, _. split; [apply Hany|]. repeat split; auto with lia.
    intros w0. by rewrite Hany.
  - eexists _, _. split; [apply Hany|]. repeat split; auto with lia.
    intros w0. by rewrite Hany.
Qed.

(** X9.  The decorated [get_past_qa_from_firestore]: on a miss it runs the
    body, which queries the collection at most once, and keeps what it
    returned, an empty list after a fault included; while the entry is
    there every call gives that same list without a query, whatever the
    collection holds by then; once the entry is gone (the five minutes are
    over) the next call runs the body again. *)
Theorem X9_history_list_is_cached g remote remote' w :
  data_get_past_qa_from_firestore (caches w) = None →
  ∃ past_qas w1,
    get_past_qa_from_firestore_cached g remote w = (Done past_qas, w1)
    ∧ (get_past_qa_from_firestore g remote w).1 = Done past_qas
    ∧ (queries (log w1) ≤ queries (log w) + 1)%nat
    ∧ data_get_past_qa_from_firestore (caches w1) = Some past_qas
    ∧ (∀ w2,
         data_get_past_qa_from_firestore (caches w2) = Some past_qas →
         ∃ w3,
           get_past_qa_from_firestore_cached g remote' w2 = (Done past_qas, w3)
           ∧ queries (log w3) = queries (log w2)
           ∧ caches w3 = caches w2)
    ∧ (∀ w2,
         (get_past_qa_from_firestore_cached g remote'
            {| session := session w2;
               caches := ttl_expiry (caches w2);
               log := log w2 |}).1
         = (get_past_qa_from_firestore g remote' w2).1).
Proof.
  intros Hmiss.
  destruct (get_past_qa_from_firestore_result g remote w)
    as (past_qas & evs & Hrun & Hq & _ & _ & _).
  exists past_qas. eexists. split.
  { unfold get_past_qa_from_firestore_cached. run. rewrite Hmiss, Hrun. reflexivity. }
  split; [by rewrite Hrun|]. simpl.
  split; [rewrite queries_app; lia|]. split; [done|]. split.
  - intros w2 Hhit. exists w2. split; [|done].
    unfold get_past_qa_from_firestore_cached. run. by rewrite Hhit.
  - intros w2.
    destruct (get_past_qa_from_firestore_result g remote'
                {| session := session w2; caches := ttl_expiry (caches w2);
                   log := log w2 |}) as (l & evs' & Hrun' & _ & _ & _ & Hval).
    unfold get_past_qa_from_firestore_cached. run. rewrite Hrun'. simpl.
    by rewrite Hval.
Qed.

(** *** Normalizing and showing a record *)

(** X10.  [normalize_timestamp] only ever touches the field "timestamp":
    every other field of a document comes back as it was, no field is added
    or dropped, and normalizing twice is normalizing once. *)
Theorem X10_normalize_touches_only_timestamp (doc : gmap string (value datetime)) :
  (∀ k, k ≠ "timestamp" → normalize_timestamp doc !! k = doc !! k)
  ∧ dom (normalize_timestamp doc) = dom doc
  ∧ normalize_timestamp (normalize_timestamp doc) = normalize_timestamp doc.
Proof.
  split; [|split].
  - intros k Hk. unfold normalize_timestamp.
    destruct (doc !! "timestamp") as [[s|t|]|]; try done.
    by rewrite lookup_insert_ne.
  - unfold normalize_timestamp.
    destruct (doc !! "timestamp") as [[s|t|]|] eqn:Hts; try done.
    rewrite dom_insert_L. apply elem_of_dom_2 in Hts. set_solver.
  - apply normalize_timestamp_other. intros t Ht.
    by apply normalize_timestamp_no_datetime in Ht.
Qed.

(** X11.  A record whose timestamp is still a native instant cannot be
    shown: slicing it raises [TypeError] before anything of the record is
    on the page.  After [normalize_timestamp] the same record is shown, with
    the first ten characters of the ISO text as its date (or "N/A" should
    that text be empty). *)
Theorem X11_native_instant_cannot_be_shown (doc : gmap string (value datetime)) t w :
  doc !! "timestamp" = Some (VDatetime t) →
  show_qa doc w = (Stop TypeError, w)
  ∧ asked_on (normalize_timestamp doc) =
      Some (if Py.truthy (isoformat t) then Py.str_upto 10 (isoformat t) else "N/A")
  ∧ ∃ evs, show_qa (normalize_timestamp doc) w = (Done tt, logged evs w)
           ∧ length evs = 3%nat.
Proof.
  intros Hts. split; [|split].
  - unfold show_qa, qa_events, expander_label, asked_on. by rewrite Hts.
  - rewrite (normalize_timestamp_datetime _ _ Hts).
    unfold asked_on. rewrite lookup_insert_eq. simpl.
    by destruct (Py.truthy (isoformat t)).
  - destruct (qa_events_normalized doc) as [evs Hevs].
    exists evs. split; [by apply show_qa_run|].
    unfold qa_events in Hevs. destruct (expander_label _); [|done].
    simpl in Hevs. by injection Hevs as <-.
Qed.

(** *** Pages *)

Lemma concat_pages {A} (l : list A) (k : nat) :
  concat ((λ p, Py.slice l ((p - 1) * items_per_page)
                  ((p - 1) * items_per_page + items_per_page))
            <$> seqZ 1 (Z.of_nat k))
  = take (5 * k) l.
Proof.
  induction k as [|k IH]; [done|].
  rewrite seqZ_S, fmap_app, concat_app, IH. simpl. rewrite app_nil_r.
  rewrite slice_of_page by lia.
  replace (Z.to_nat ((1 + Z.of_nat k - 1) * 5)) with (5 * k)%nat by lia.
  rewrite take_take_drop. f_equal. lia.
Qed.

(** X12.  The pages of the history section are a partition of the list:
    the slices of the pages [1 .. total_pages], one after the other, give
    the list back; every one of these pages holds at least one record and
    at most five, and every page but the last holds five. *)
Theorem X12_pages_partition_the_list (past_qas : list (gmap string (value datetime))) :
  let page_of p :=
    Py.slice past_qas ((p - 1) * items_per_page)
      ((p - 1) * items_per_page + items_per_page) in
  concat (page_of <$> seqZ 1 (total_pages_for past_qas)) = past_qas
  ∧ ∀ p, 1 ≤ p ≤ total_pages_for past_qas →
         (1 ≤ length (page_of p) ≤ 5)%nat
         ∧ (p < total_pages_for past_qas → length (page_of p) = 5%nat).
Proof.
  intros page_of.
  pose proof (total_pages_is_ceiling past_qas) as Hc. simpl in Hc.
  split.
  - assert (0 ≤ total_pages_for past_qas) as Hnn by lia.
    rewrite <- (Z2Nat.id _ Hnn). unfold page_of. rewrite concat_pages.
    apply take_ge. lia.
  - intros p Hp. unfold page_of. rewrite slice_of_page by lia.
    rewrite length_take, length_drop. lia.
Qed.

(** X13.  Turning a page forth and back: from a page within range, Next
    then Previous ends on the same page unless the page was the last one,
    and Previous then Next ends on the same page unless it was the
    first. *)
Theorem X13_next_previous_round_trip (docs : list (gmap string (value datetime))) w :
  let past_qas := normalize_timestamp <$> docs in
  let total_pages := total_pages_for past_qas in
  let p := page_number (session w) in
  1 ≤ p ≤ Z.max 1 total_pages →
  (∃ w',
     press_all 2 (show_history past_qas) [Next; Previous] w = Some (Done tt, w')
     ∧ page_number (session w') = if p <? total_pages then p else Z.max 1 (p - 1))
  ∧ (∃ w',
       press_all 2 (show_history past_qas) [Previous; Next] w = Some (Done tt, w')
       ∧ page_number (session w') = if 1 <? p then p else Z.min (Z.max 1 total_pages) 2).
Proof.
  intros past_qas total_pages p Hp. split.
  - destruct (pagination_step docs Next w Hp) as (w1 & Hrun1 & Hp1 & _).
    fold past_qas total_pages p in Hrun1, Hp1.
    destruct (pagination_step docs Previous w1) as (w2 & Hrun2 & Hp2 & _).
    { fold past_qas total_pages. rewrite Hp1. lia. }
    fold past_qas total_pages in Hrun2, Hp2.
    exists w2. cbn [press_all]. rewrite Hrun1, Hrun2. split; [done|].
    rewrite Hp2, Hp1. destruct (Z.ltb_spec p total_pages); lia.
  - destruct (pagination_step docs Previous w Hp) as (w1 & Hrun1 & Hp1 & _).
    fold past_qas total_pages p in Hrun1, Hp1.
    destruct (pagination_step docs Next w1) as (w2 & Hrun2 & Hp2 & _).
    { fold past_qas total_pages. rewrite Hp1. lia. }
    fold past_qas total_pages in Hrun2, Hp2.
    exists w2. cbn [press_all]. rewrite Hrun1, Hrun2. split; [done|].
    rewrite Hp2, Hp1. destruct (Z.ltb_spec 1 p); lia.
Qed.

(** *** The history section on any list *)

Lemma qa_events_None (qa : gmap string (value datetime)) :
  qa_events qa = None ↔ ∃ t, qa !! "timestamp" = Some (VDatetime t).
Proof.
  unfold qa_events, expander_label, asked_on.
  destruct (qa !! "timestamp") as [[s|t|]|]; simpl.
  - destruct (Py.truthy s); simpl; split; [done|by intros [? ?]|done|by intros [? ?]].
  - split; [by exists t|done].
  - split; [done|by intros [? ?]].
  - split; [done|by intros [? ?]].
Qed.

Lemma for_each_show_qa_general (qas : list (gmap string (value datetime))) w :
  ∃ o (evs : list (event datetime)),
    for_each qas show_qa w = (o, logged evs w)
    ∧ (o = Done tt ∨ o = Stop TypeError)
    ∧ (o = Stop TypeError → ∃ qa, qa ∈ qas ∧ qa_events qa = None)
    ∧ (Forall (λ qa, is_Some (qa_events qa)) qas → o = Done tt)
    ∧ writes evs = [] ∧ prompts evs = [] ∧ queries evs = 0%nat.
Proof.
  revert w. induction qas as [|qa qas IH]; intros w.
  { exists (Done tt), []. rewrite logged_nil. repeat split; auto. by intros [=]. }
  destruct (qa_events qa) as [e1|] eqn:Hqa.
  - destruct (IH (logged e1 w)) as (o & e2 & Hrun & Ho & Hty & Hall & Hw & Hp & Hq).
    destruct (qa_events_shape _ _ Hqa) as (_ & _ & _ & Hw1 & Hp1 & _).
    assert (queries e1 = 0%nat) as Hq1.
    { unfold qa_events in Hqa. destruct (expander_label qa); [|done].
      simpl in Hqa. by injection Hqa as <-. }
    exists o, (e1 ++ e2). split.
    { simpl. unfold mbind, App_bind. rewrite (show_qa_run _ _ _ Hqa), Hrun.
      by rewrite logged_logged. }
    rewrite writes_app, prompts_app, queries_app, Hw, Hw1, Hp, Hp1, Hq, Hq1.
    repeat split; auto.
    + intros Hstop. destruct (Hty Hstop) as (qa' & Hin & Hnone).
      exists qa'. split; [by right|done].
    + intros Hall'. apply Hall. by inversion Hall'.
  - exists (Stop TypeError), []. split.
    { simpl. unfold mbind, App_bind, show_qa. rewrite Hqa. simpl.
      by rewrite logged_nil. }
    repeat split; auto.
    + intros _. exists qa. split; [by left|done].
    + intros Hall. inversion Hall as [|? ? [? Hsome]]; congruence.
Qed.

(** One run of the history section, on any list and from any session. *)
Lemma show_history_general (past_qas : list (gmap string (value datetime))) clicked w :
  ∃ o w',
    show_history past_qas clicked w = (o, w')
    ∧ caches w' = caches w
    ∧ writes (log w') = writes (log w)
    ∧ prompts (log w') = prompts (log w)
    ∧ queries (log w') = queries (log w)
    ∧ current_question (session w') = current_question (session w)
    ∧ current_solution (session w') = current_solution (session w)
    ∧ solution_generated (session w') = solution_generated (session w)
    ∧ (page_ok (session w) → page_ok (session w'))
    ∧ (o = Done tt ∨ o = Stop TypeError
       ∨ (o = Stop RerunException ∧ history_page (session w') = Some 1))
    ∧ (o = Stop TypeError → ∃ qa, qa ∈ past_qas ∧ qa_events qa = None)
    ∧ (Forall (λ qa, is_Some (qa_events qa)) past_qas → o ≠ Stop TypeError)
    ∧ (clicked = None → history_page (session w) = Some 1 → o ≠ Stop RerunException).
Proof.
  unfold show_history. destruct (is_empty past_qas) eqn:Hempty.
  { eexists _, _. split; [reflexivity|]. simpl.
    rewrite writes_app, prompts_app, queries_app. simpl. rewrite !app_nil_r.
    repeat split; auto with lia; try done. }
  change ((page_controls (total_pages_for past_qas) clicked;; show_page past_qas) w)
    with (match page_controls (total_pages_for past_qas) clicked w with
          | (Done a, w') => show_page past_qas w'
          | (Stop i, w') => (Stop i, w')
          end).
  rewrite page_controls_run.
  set (p1 := after_previous clicked (page_number (session w))).
  set (p2 := after_next (total_pages_for past_qas) clicked p1).
  set (shown := WriteText (caption p1 (total_pages_for past_qas))).
  assert (Hok : page_ok (session w) → 1 ≤ p2).
  { unfold page_ok, p2, p1, after_next, after_previous, page_number.
    destruct (history_page (session w)) as [p|]; simpl; intros Hp;
      destruct clicked as [[]|]; simpl;
      repeat (match goal with |- context [?a <? ?b] => destruct (Z.ltb_spec a b) end);
      lia. }
  unfold show_page. run.
  set (current := Py.slice past_qas ((p2 - 1) * items_per_page)
                    ((p2 - 1) * items_per_page + items_per_page)).
  destruct (is_empty current && (1 <? p2)) eqn:Hcond; simpl.
  { eexists _, _. split; [reflexivity|]. simpl.
    rewrite writes_app, prompts_app, queries_app. simpl. rewrite !app_nil_r.
    repeat split; auto with lia; try done.
    intros -> Hone. exfalso.
    apply andb_true_iff in Hcond as [_ Hlt]. apply Z.ltb_lt in Hlt.
    unfold p2, p1, after_next, after_previous, page_number in Hlt.
    rewrite Hone in Hlt. simpl in Hlt. lia. }
  match goal with
  | |- context [for_each current show_qa ?w0] =>
      destruct (for_each_show_qa_general current w0)
        as (o & evs & Hrun & Ho & Hty & Hall & Hw & Hp & Hq)
  end.
  eexists o, _. split; [exact Hrun|]. simpl.
  rewrite !writes_app, !prompts_app, !queries_app, Hw, Hp, Hq. simpl.
  rewrite !app_nil_r.
  assert (Hsub : ∀ qa, qa ∈ current → qa ∈ past_qas).
  { intros qa Hin. unfold current, Py.slice in Hin.
    by apply subseteq_take, subseteq_drop in Hin. }
  repeat split; auto with lia; try done.
  - unfold shown, queries. simpl. lia.
  - destruct Ho as [->| ->]; auto.
  - intros Hstop. destruct (Hty Hstop) as (qa & Hin & Hnone).
    exists qa. split; [by apply Hsub|done].
  - intros Hforall Hstop. rewrite Hall in Hstop; [done|].
    apply Forall_forall. intros qa Hin.
    apply (proj1 (Forall_forall _ _) Hforall). by apply Hsub.
  - intros _ _ Hstop. destruct Ho as [->| ->]; done.
Qed.

Lemma page_number_logged (evs : list (event datetime)) p (s : Session) w :
  page_number (session (logged evs (in_session (on_page p s) w))) = p.
Proof. reflexivity. Qed.

(** X14.  The page number corrects itself.  On a non-empty list, from any
    page [p >= 1] and with any button pressed, one interaction ends
    normally within two runs; the page it ends on is the one the buttons
    lead to when that page still has records, and page 1 otherwise; either
    way it lies within [1 .. total_pages]. *)
Theorem X14_page_number_corrects_itself
    (doc : gmap string (value datetime)) docs clicked w :
  let past_qas := normalize_timestamp <$> (doc :: docs) in
  let total_pages := total_pages_for past_qas in
  let p2 := after_next total_pages clicked
              (after_previous clicked (page_number (session w))) in
  1 ≤ page_number (session w) →
  ∃ w',
    run_to_end 2 (show_history past_qas) clicked w = Some (Done tt, w')
    ∧ page_number (session w') =
        (if (p2 - 1) * 5 <? Z.of_nat (length past_qas) then p2 else 1)
    ∧ 1 ≤ page_number (session w') ≤ total_pages.
Proof.
  intros past_qas total_pages p2 Hp.
  assert (past_qas ≠ []) as Hne by done.
  pose proof (total_pages_is_ceiling past_qas) as Hc. cbv zeta in Hc.
  fold total_pages in Hc.
  assert (1 ≤ Z.of_nat (length past_qas)) as HN.
  { unfold past_qas. rewrite length_fmap. simpl. lia. }
  assert (1 ≤ total_pages) as Htp by lia.
  set (p1 := after_previous clicked (page_number (session w))) in *.
  assert (1 ≤ p2) as Hp2.
  { unfold p2, p1, after_next, after_previous.
    destruct clicked as [[]|]; simpl;
      repeat (match goal with |- context [?a <? ?b] => destruct (Z.ltb_spec a b) end);
      lia. }
  destruct (page_events_is_Some (take 5 (drop (Z.to_nat ((p2 - 1) * 5)) past_qas)))
    as [evs Hevs].
  { apply Forall_take, Forall_drop, normalized_can_be_shown. }
  pose proof (show_history_run past_qas clicked evs w Hne) as Hrun.
  cbv zeta in Hrun. fold total_pages p1 p2 in Hrun.
  specialize (Hrun Hp2 Hevs).
  destruct (is_empty (take 5 (drop (Z.to_nat ((p2 - 1) * 5)) past_qas))) eqn:Hempty;
    simpl in Hrun.
  - pose proof Hempty as Hlen. rewrite page_is_empty in Hlen.
    destruct (Z.ltb_spec 1 p2) as [Hlt|Hge]; [|lia].
    set (w1 := logged [WriteText (caption p1 total_pages)]
                 (in_session (on_page 1 (session w)) w)) in *.
    destruct (show_history_in_range (doc :: docs) None w1) as (w' & Hrun' & Hp' & _).
    { unfold w1, page_number. simpl. lia. }
    exists w'. split.
    { rewrite (run_to_end_rerun 1 _ _ _ w1 Hrun). by apply run_to_end_done. }
    assert (page_number (session w') = 1) as -> by (rewrite Hp'; reflexivity).
    destruct (Z.ltb_spec ((p2 - 1) * 5) (Z.of_nat (length past_qas))); lia.
  - apply not_true_iff_false in Hempty. rewrite page_is_empty in Hempty.
    eexists. split; [by apply run_to_end_done|].
    rewrite page_number_logged.
    destruct (Z.ltb_spec ((p2 - 1) * 5) (Z.of_nat (length past_qas))); lia.
Qed.


(** *** A whole run of the page *)

Lemma bind_seq {A B} (m : App datetime A) (k : App datetime B) w :
  (m;; k) w = match m w with
              | (Done _, w') => k w'
              | (Stop i, w') => (Stop i, w')
              end.
Proof. reflexivity. Qed.

Lemma on_generate_done g remote user_question w :
  history_cache_ok (caches w) →
  ∃ w',
    on_generate g remote user_question w = (Done tt, w')
    ∧ history_page (session w') = history_page (session w)
    ∧ history_cache_ok (caches w')
    ∧ (length (writes (log w')) ≤ length (writes (log w)) + 1)%nat.
Proof.
  intros Hok.
  destruct (truthy_key (GEMINI_API_KEY g)) eqn:Hkey.
  2:{ eexists. split; [unfold on_generate; rewrite Hkey; reflexivity|].
      simpl. rewrite writes_app, length_app. simpl. auto with lia. }
  destruct (Py.truthy (Py.strip user_question)) eqn:Hq.
  2:{ eexists. split; [unfold on_generate; rewrite Hkey, Hq; reflexivity|].
      simpl. rewrite writes_app, length_app. simpl. auto with lia. }
  apply truthy_true in Hq.
  destruct (generate_solution_events g remote user_question)
    as (solution & gevs & Hgen & Hw & _).
  rewrite (on_generate_cases g remote user_question w solution gevs Hkey Hq Hgen).
  cbv zeta.
  repeat (match goal with
          | |- context [if ?c then _ else _] => destruct c
          | |- context [match collection_add ?r ?d with _ => _ end] =>
              destruct (collection_add r d)
          end);
    (eexists; split; [reflexivity|]; simpl;
     rewrite !writes_app, !length_app, Hw; simpl;
     split; [done|]; split; [done || exact I | lia]).
Qed.

Lemma input_section_done g remote user_question clicked w :
  history_cache_ok (caches w) →
  ∃ w',
    input_section g remote user_question clicked w = (Done tt, w')
    ∧ history_page (session w') = history_page (session w)
    ∧ history_cache_ok (caches w')
    ∧ (length (writes (log w')) ≤ length (writes (log w)) + 1)%nat.
Proof.
  intros Hok. unfold input_section.
  destruct clicked as [[]|]; try (exists w; split; [reflexivity|]; auto with lia).
  by apply on_generate_done.
Qed.

Lemma show_current_solution_run w :
  ∃ evs : list (event datetime),
    show_current_solution w = (Done tt, logged evs w)
    ∧ writes evs = [] ∧ queries evs = 0%nat.
Proof.
  unfold show_current_solution. run.
  destruct (solution_generated (session w)).
  - eexists. split; [tidy_log; reflexivity|done].
  - exists []. by rewrite logged_nil.
Qed.

Lemma sidebar_status_run g w :
  ∃ evs : list (event datetime),
    sidebar_status g w = (Done tt, logged evs w)
    ∧ writes evs = [] ∧ queries evs = 0%nat.
Proof.
  unfold sidebar_status. run.
  destruct (truthy_flag (firebase_initialized g));
    destruct (truthy_key (GEMINI_API_KEY g) && present (model g));
    (eexists; split; [tidy_log; reflexivity|done]).
Qed.

Lemma history_section_general g remote clicked w :
  history_cache_ok (caches w) →
  ∃ o w',
    history_section g remote clicked w = (o, w')
    ∧ history_cache_ok (caches w')
    ∧ writes (log w') = writes (log w)
    ∧ (page_ok (session w) → page_ok (session w'))
    ∧ (o = Done tt ∨ (o = Stop RerunException ∧ history_page (session w') = Some 1))
    ∧ (clicked = None → history_page (session w) = Some 1 → o = Done tt).
Proof.
  intros Hok. unfold history_section.
  destruct (truthy_flag (firebase_initialized g)) eqn:Hfi.
  2:{ eexists _, _. split; [reflexivity|]. simpl.
      rewrite writes_app. simpl. rewrite app_nil_r. auto 10. }
  destruct (get_past_qa_from_firestore_cached_normalized g remote w Hok)
    as (docs & w1 & Hrun & Hok1 & Hs1).
  assert (writes (log w1) = writes (log w)) as Hw1.
  { revert Hrun. unfold get_past_qa_from_firestore_cached. run.
    destruct (data_get_past_qa_from_firestore (caches w)).
    - by intros [= _ <-].
    - destruct (get_past_qa_from_firestore_result g remote w)
        as (l & evs & Hbody & _ & Hw & _). rewrite Hbody. simpl.
      intros [= _ <-]. simpl. by rewrite writes_app, Hw, app_nil_r. }
  unfold mbind at 1, App_bind at 1. rewrite Hrun.
  destruct (show_history_general (normalize_timestamp <$> docs) clicked w1)
    as (o & w2 & Hshow & Hc & Hw & _ & _ & _ & _ & _ & Hpage & Ho & _ & Hnot & Hno).
  specialize (Hnot (normalized_can_be_shown docs)).
  exists o, w2. split; [done|]. rewrite Hc, Hw, Hw1, <- Hs1.
  split; [done|]. split; [done|]. split; [done|].
  split.
  - destruct Ho as [->|[->|[-> Hone]]]; auto. done.
  - intros Hnone Hone. specialize (Hno Hnone Hone).
    destruct Ho as [->|[->|[-> _]]]; done.
Qed.

(** One run of the page. *)
Lemma page_once g remote user_question clicked w :
  history_cache_ok (caches w) →
  ∃ o w',
    page g remote user_question clicked w = (o, w')
    ∧ history_cache_ok (caches w')
    ∧ (length (writes (log w')) ≤ length (writes (log w)) + 1)%nat
    ∧ (clicked = None → writes (log w') = writes (log w))
    ∧ (page_ok (session w) → page_ok (session w'))
    ∧ (o = Done tt ∨ (o = Stop RerunException ∧ history_page (session w') = Some 1))
    ∧ (clicked = None → history_page (session w) = Some 1 → o = Done tt).
Proof.
  intros Hok. unfold page.
  destruct (input_section_done g remote user_question clicked w Hok)
    as (wa & Hin & Hpa & Hoka & Hwa).
  assert (clicked = None → wa = w) as Hnone.
  { intros ->. by injection Hin as <-. }
  rewrite bind_seq, Hin.
  destruct (show_current_solution_run wa) as (evb & Hshow & Hwb & _).
  rewrite bind_seq, Hshow.
  destruct (history_section_general g remote clicked (logged evb wa))
    as (o & wc & Hhist & Hokc & Hwc & Hpc & Ho & Hno); [done|].
  rewrite bind_seq, Hhist.
  simpl in Hwc. rewrite writes_app, Hwb, app_nil_r in Hwc.
  assert (Hpage : page_ok (session w) → page_ok (session wc)).
  { intros Hp. apply Hpc. unfold page_ok in *. simpl. by rewrite Hpa. }
  destruct Ho as [->|[-> Hone]].
  - destruct (sidebar_status_run g wc) as (evd & Hside & Hwd & _).
    eexists _, _. split; [exact Hside|]. simpl.
    rewrite writes_app, Hwd, app_nil_r, Hwc.
    split; [done|]. split; [done|]. split; [by intros ->%Hnone|].
    split; [done|]. split; [by left|]. done.
  - eexists _, _. split; [reflexivity|]. rewrite Hwc.
    split; [done|]. split; [done|]. split; [by intros ->%Hnone|].
    split; [done|]. split; [by right|].
    intros Hc Hp1. specialize (Hno Hc). simpl in Hno. rewrite Hpa in Hno.
    by specialize (Hno Hp1).
Qed.


(** *** The whole script, and a whole session *)

Lemma init_firebase_cached_run (env : FirebaseSetup) w :
  ∃ pair w',
    init_firebase_cached (init_firebase env) w = (Done pair, w')
    ∧ session w' = session w
    ∧ data_get_past_qa_from_firestore (caches w') = data_get_past_qa_from_firestore (caches w)
    ∧ writes (log w') = writes (log w).
Proof.
  unfold init_firebase_cached. run.
  destruct (resource_init_firebase (caches w)) as [pair|].
  - by exists pair, w.
  - destruct (init_firebase_done env w) as (pair & evs & Hrun & Hw & _).
    rewrite Hrun. simpl. eexists _, _. split; [reflexivity|]. simpl.
    by rewrite writes_app, Hw, app_nil_r.
Qed.

Lemma get_gemini_api_key_cached_run (secrets : secret_lookup) w :
  ∃ api_key w',
    get_gemini_api_key_cached secrets w = (Done api_key, w')
    ∧ session w' = session w
    ∧ data_get_past_qa_from_firestore (caches w') = data_get_past_qa_from_firestore (caches w)
    ∧ writes (log w') = writes (log w).
Proof.
  unfold get_gemini_api_key_cached, get_gemini_api_key. run.
  destruct (data_get_gemini_api_key (caches w)) as [api_key|].
  - by exists api_key, w.
  - destruct secrets as [v| |e]; [destruct (Py.truthy v)| |]; simpl;
      (eexists _, _; split; [reflexivity|]; simpl;
       rewrite ?writes_app, ?app_nil_r; done).
Qed.

Lemma configure_model_run remote api_key w :
  ∃ m (evs : list (event datetime)),
    configure_model remote api_key w = (Done m, logged evs w) ∧ writes evs = [].
Proof.
  unfold configure_model.
  destruct api_key as [k|]; [destruct (Py.truthy k); [destruct (construct_model remote k)|]|];
    (eexists _, _; split; [reflexivity|done]).
Qed.

Lemma history_cache_ok_same (c c' : Caches datetime) :
  data_get_past_qa_from_firestore c' = data_get_past_qa_from_firestore c →
  history_cache_ok c → history_cache_ok c'.
Proof. unfold history_cache_ok. by intros ->. Qed.

(** One run of the script. *)
Lemma script_once init secrets remote user_question clicked w :
  (∀ w0, ∃ pair w1,
     init_firebase_cached init w0 = (Done pair, w1)
     ∧ session w1 = session w0
     ∧ data_get_past_qa_from_firestore (caches w1)
       = data_get_past_qa_from_firestore (caches w0)
     ∧ writes (log w1) = writes (log w0)) →
  history_cache_ok (caches w) →
  ∃ o w',
    script init secrets remote user_question clicked w = (o, w')
    ∧ history_cache_ok (caches w')
    ∧ (length (writes (log w')) ≤ length (writes (log w)) + 1)%nat
    ∧ (clicked = None → writes (log w') = writes (log w))
    ∧ (page_ok (session w) → page_ok (session w'))
    ∧ (o = Done tt ∨ (o = Stop RerunException ∧ history_page (session w') = Some 1))
    ∧ (clicked = None → history_page (session w) = Some 1 → o = Done tt).
Proof.
  intros Hinit Hok. unfold script.
  destruct (Hinit w) as ([handle initialized] & w1 & Hrun1 & Hs1 & Hc1 & Hw1).
  unfold mbind at 1, App_bind at 1. rewrite Hrun1.
  destruct (get_gemini_api_key_cached_run secrets w1)
    as (api_key & w2 & Hrun2 & Hs2 & Hc2 & Hw2).
  unfold mbind at 1, App_bind at 1. rewrite Hrun2.
  destruct (configure_model_run remote api_key w2) as (m & evs & Hrun3 & Hw3).
  unfold mbind at 1, App_bind at 1. rewrite Hrun3.
  destruct (page_once {| db := handle; firebase_initialized := initialized;
                         GEMINI_API_KEY := api_key; model := m |}
              remote user_question clicked (logged evs w2))
    as (o & w' & Hpage & Hok' & Hw' & Hnone & Hp & Ho & Hdone).
  { simpl. eapply history_cache_ok_same; [|exact Hok]. by rewrite Hc2, Hc1. }
  exists o, w'. split; [exact Hpage|].
  simpl in Hw', Hnone, Hp, Hdone.
  rewrite writes_app, Hw3, app_nil_r, Hw2, Hw1 in Hw', Hnone.
  rewrite Hs2, Hs1 in Hp, Hdone.
  done.
Qed.



(** *** Key, model and prompt *)

(** X19.  [get_gemini_api_key] never raises and never returns an empty key:
    it returns the secret when the secret is a non-empty text, and [None]
    in every other case (empty text, missing key, any other fault), then
    with exactly one error message.  So for the name of line 65 the test
    [if GEMINI_API_KEY] is the test for [None]. *)
Theorem X19_api_key_is_never_empty (secrets : secret_lookup) w :
  ∃ api_key (evs : list (event datetime)),
    get_gemini_api_key secrets w = (Done api_key, logged evs w)
    ∧ (∀ k, api_key = Some k ↔ secrets = SecretValue k ∧ k ≠ EmptyString)
    ∧ truthy_key api_key = present api_key
    ∧ (api_key = None → ∃ msg, evs = [Message Main LvError msg])
    ∧ (present api_key = true → evs = []).
Proof.
  assert (Hnone : ∀ (msg : string) (s : secret_lookup),
            (∀ k, s ≠ SecretValue k ∨ k = EmptyString) →
            (∀ k, @None string = Some k ↔ s = SecretValue k ∧ k ≠ EmptyString)
            ∧ truthy_key None = present (@None string)
            ∧ (@None string = None →
               ∃ msg', [Message (datetime:=datetime) Main LvError msg]
                       = [Message Main LvError msg'])
            ∧ (present (@None string) = true →
               [Message (datetime:=datetime) Main LvError msg] = [])).
  { intros msg s Hs. split; [|split; [done|split; [by eexists|done]]].
    intros k. split; [done|]. intros [-> Hk]. by destruct (Hs k). }
  unfold get_gemini_api_key.
  destruct secrets as [v| |e]; [destruct v as [|c v]|..]; simpl.
  - eexists None, _. split; [reflexivity|]. apply Hnone.
    intros k. destruct k; [by right|left; congruence].
  - exists (Some (String c v)), []. rewrite logged_nil. split; [reflexivity|].
    split; [|done]. intros k. split.
    + by intros [= <-].
    + by intros [[= <-] _].
  - eexists None, _. split; [reflexivity|]. apply Hnone. by left.
  - eexists None, _. split; [reflexivity|]. apply Hnone. by left.
Qed.

(** X20.  Lines 67-77 never raise and show exactly one sidebar message.
    The model is there exactly when the key is a non-empty text and the
    construction returned; then, and only then, the message is the success
    one.  With a model there is a key, so the sidebar test
    [GEMINI_API_KEY and model] of line 267 is the test for the model. *)
Theorem X20_model_needs_key remote (api_key : option string) w :
  ∃ m (shown : event datetime),
    configure_model remote api_key w = (Done m, logged [shown] w)
    ∧ (∀ built, m = Some built ↔
                ∃ k, api_key = Some k ∧ k ≠ EmptyString
                     ∧ construct_model remote k = Returned built)
    ∧ (present m = true ↔
       shown = Message Sidebar LvSuccess "Gemini API configured successfully!")
    ∧ (∀ handle initialized,
         let g := globals_of handle initialized api_key m in
         truthy_key (GEMINI_API_KEY g) && present (model g) = present m).
Proof.
  unfold configure_model.
  destruct api_key as [k|]; simpl.
  2:{ eexists None, _. split; [reflexivity|].
      split; [|split; [split; done|done]].
      intros built. split; [done|]. by intros (? & [=] & _). }
  destruct (Py.truthy k) eqn:Hk.
  2:{ apply truthy_false in Hk as ->.
      eexists None, _. split; [reflexivity|].
      split; [|split; [split; done|done]].
      intros built. split; [done|]. by intros (? & [= <-] & ? & _). }
  destruct (construct_model remote k) as [built|e] eqn:Hc.
  - eexists (Some built), _. split; [reflexivity|].
    split; [|split; [split; done|]].
    + intros built'. split.
      * intros [= <-]. exists k. by apply truthy_true in Hk.
      * intros (k' & [= <-] & _ & Hc'). congruence.
    + intros handle initialized. by destruct k.
  - eexists None, _. split; [reflexivity|].
    split; [|split; [split; done|]].
    + intros built. split; [done|].
      intros (k' & [= <-] & _ & Hc'). congruence.
    + intros handle initialized. by destruct k.
Qed.

Lemma list_ascii_of_string_app a b :
  list_ascii_of_string (a +:+ b) = list_ascii_of_string a ++ list_ascii_of_string b.
Proof. induction a as [|c a IH]; simpl; [done|]. by rewrite IH. Qed.

Lemma string_app_inv_tail a b tail : a +:+ tail = b +:+ tail → a = b.
Proof.
  intros Heq. apply (f_equal list_ascii_of_string) in Heq.
  rewrite !list_ascii_of_string_app in Heq. apply app_inv_tail in Heq.
  apply (f_equal string_of_list_ascii) in Heq.
  by rewrite !string_of_list_ascii_of_string in Heq.
Qed.

(** X21.  The prompt carries the question as typed, between the same fixed
    texts, so two questions are sent as the same prompt only when they are
    the same question. *)
Theorem X21_prompt_determines_question (q1 q2 : string) :
  prompt_for q1 = prompt_for q2 → q1 = q2.
Proof.
  set (before_question :=
         Py.nl +:+ "    You are an expert math and physics tutor." +:+ Py.nl
         +:+ "    Provide a clear, step-by-step solution to the following question."
         +:+ Py.nl
         +:+ "    Explain each step thoroughly. If formulas are used, state them first."
         +:+ Py.nl
         +:+ "    Make the solution easy for a beginner to understand." +:+ Py.nl
         +:+ Py.nl +:+ "    Question: " +:+ Py.dquote).
  set (after_question :=
         Py.dquote +:+ Py.nl +:+ Py.nl +:+ "    Solution:" +:+ Py.nl +:+ "    ").
  assert (Hshape : ∀ q, prompt_for q = before_question +:+ (q +:+ after_question))
    by (intros q; reflexivity).
  rewrite !Hshape. intros Heq.
  apply (inj (String.app before_question)) in Heq.
  by apply string_app_inv_tail in Heq.
Qed.

(** X22.  What was generated is what is shown.  After a press of the
    generate button with a key and a non-blank input, the section of the
    current solution shows the question as typed and the text
    [generate_solution] returned, whether that text is an answer or a
    failure text. *)
Theorem X22_generated_is_shown g remote user_question w solution w1 :
  truthy_key (GEMINI_API_KEY g) = true →
  Py.strip user_question ≠ EmptyString →
  generate_solution g remote user_question w = (Done solution, w1) →
  ∃ wa,
    on_generate g remote user_question w = (Done tt, wa)
    ∧ show_current_solution wa =
        (Done tt,
         logged [Markdown (VStr ("**Question:** " +:+ user_question));
                 Markdown (VStr "**Answer:**");
                 Markdown (VStr solution)] wa).
Proof.
  intros Hkey Hq Hrun.
  destruct (generate_solution_events g remote user_question)
    as (sol & gevs & Hgen & _).
  rewrite Hgen in Hrun. injection Hrun as -> <-.
  rewrite (on_generate_cases g remote user_question w solution gevs Hkey Hq Hgen).
  cbv zeta.
  repeat (match goal with
          | |- context [if ?c then _ else _] => destruct c
          | |- context [match collection_add ?r ?d with _ => _ end] =>
              destruct (collection_add r d)
          end);
    (eexists; split; [reflexivity|];
     unfold show_current_solution; run; tidy_log; reflexivity).
Qed.

End Properties.

(** ** What trimming to nothing means *)

Lemma lstrip_rev_app a b :
  Py.lstrip (String.rev_app a b) = EmptyString → Py.lstrip b = EmptyString.
Proof.
  revert b. induction a as [|x a IH]; intros b; simpl; [done|].
  intros Hb. apply IH in Hb. simpl in Hb. by destruct (Py.isspace x).
Qed.

Lemma rev_app_empty a b :
  String.rev_app a b = EmptyString → a = EmptyString ∧ b = EmptyString.
Proof.
  revert b. induction a as [|x a IH]; intros b; simpl; [done|].
  by intros [_ [=]]%IH.
Qed.

Lemma rev_empty s : String.rev s = EmptyString → s = EmptyString.
Proof. by intros [-> _]%rev_app_empty. Qed.

Lemma lstrip_blank s :
  Py.lstrip s = EmptyString ↔ Forall (λ c, Py.isspace c = true) (list_ascii_of_string s).
Proof.
  induction s as [|c s IH]; simpl; [by split|].
  destruct (Py.isspace c) eqn:Hc.
  - rewrite IH. split; [by constructor|by inversion 1].
  - split; [done|]. inversion 1; congruence.
Qed.

Lemma strip_blank s :
  Py.strip s = EmptyString ↔ Forall (λ c, Py.isspace c = true) (list_ascii_of_string s).
Proof.
  rewrite <- lstrip_blank. unfold Py.strip, Py.rstrip. split.
  - intros Hs%rev_empty.
    destruct (Py.lstrip s) as [|c t] eqn:Ht; [done|].
    assert (Py.isspace c = false) as Hc.
    { clear Hs. revert Ht. induction s as [|x s IH]; simpl; [done|].
      destruct (Py.isspace x) eqn:Hx; [done|]. by intros [= <- <-]. }
    unfold String.rev in Hs. simpl in Hs.
    apply lstrip_rev_app in Hs. simpl in Hs. by rewrite Hc in Hs.
  - by intros ->.
Qed.

(** ** Blank input, character by character *)

Section Trimming.

Context `{Datetime datetime}.

(** X23.  With a key configured, the generate button does its work exactly
    when the input holds a character that is not whitespace: an input of
    whitespace only gets the warning and nothing else; any other input is
    stored in the session as typed, untrimmed, with the generated flag
    set. *)
Theorem X23_generation_needs_a_visible_character
    (g : Globals) (remote : Remote datetime) user_question (w : World datetime) :
  truthy_key (GEMINI_API_KEY g) = true →
  (Forall (λ c, Py.isspace c = true) (list_ascii_of_string user_question) →
   on_generate g remote user_question w =
     (Done tt, logged [Message Main LvWarning "Please enter a question."] w))
  ∧ (¬ Forall (λ c, Py.isspace c = true) (list_ascii_of_string user_question) →
     ∃ w',
       on_generate g remote user_question w = (Done tt, w')
       ∧ current_question (session w') = user_question
       ∧ solution_generated (session w') = true
       ∧ history_page (session w') = history_page (session w)).
Proof.
  intros Hkey. split.
  - intros Hblank%strip_blank. unfold on_generate. by rewrite Hkey, Hblank.
  - intros Hvisible.
    assert (Py.strip user_question ≠ EmptyString) as Hq
      by (by intros Hs%strip_blank).
    destruct (generate_solution_events g remote user_question)
      as (solution & gevs & Hgen & _).
    rewrite (on_generate_cases g remote user_question w solution gevs Hkey Hq Hgen).
    cbv zeta.
    repeat (match goal with
            | |- context [if ?c then _ else _] => destruct c
            | |- context [match collection_add ?r ?d with _ => _ end] =>
                destruct (collection_add r d)
            end);
      (eexists; split; [reflexivity|done]).
Qed.

End Trimming.

(** ** Closed instances *)

(** C1 at a question whose generation fails with a quota fault. *)
Lemma C1_witness :
  truthy_key (GEMINI_API_KEY sample_globals) = true
  ∧ Py.strip "2+2?" ≠ EmptyString
  ∧ Py.startswith (failure_text "quota exceeded") failure_sentinel = true
  ∧ writes (log (on_generate sample_globals failing_remote "2+2?" sample_world).2) = []
  ∧ session (on_generate sample_globals failing_remote "2+2?" sample_world).2 =
      {| current_question := "2+2?";
         current_solution := failure_text "quota exceeded";
         solution_generated := true;
         history_page := None |}.
Proof.
  assert (Hq : Py.strip "2+2?" ≠ EmptyString) by (vm_compute; discriminate).
  destruct (C1_failed_generation_is_not_saved sample_globals failing_remote "2+2?"
              sample_world (failure_text "quota exceeded")
              (logged [GenerateContent (prompt_for "2+2?");
                       Message Main LvError
                         ("Error generating solution with Gemini: " +:+ "quota exceeded")]
                 sample_world)
              eq_refl Hq eq_refl eq_refl) as [Hrun Hwrites].
  split; [reflexivity|]. split; [exact Hq|]. split; [reflexivity|].
  rewrite Hrun. split; [exact Hwrites|reflexivity].
Defined.

(** C2 at a model that answers and at one that raises. *)
Lemma C2_witness :
  "2+2?" ≠ EmptyString
  ∧ present (model sample_globals) = true
  ∧ (generate_solution sample_globals sample_remote "2+2?" sample_world).1 = Done "x = 2"
  ∧ (generate_solution sample_globals failing_remote "2+2?" sample_world).1 =
      Done "Sorry, I couldn't generate a solution at this time. Error: quota exceeded".
Proof.
  assert (Hq : "2+2?" ≠ EmptyString) by discriminate.
  pose proof (C2_generate_solution_shapes sample_globals sample_remote "2+2?"
                sample_world Hq eq_refl) as Hok.
  pose proof (C2_generate_solution_shapes sample_globals failing_remote "2+2?"
                sample_world Hq eq_refl) as Hbad.
  simpl in Hok, Hbad. destruct Hbad as [Hbad _].
  split; [exact Hq|]. split; [reflexivity|].
  split; [rewrite Hok|rewrite Hbad]; reflexivity.
Defined.

(** C2 as stated fails when the answer of the model begins like the failure
    text: the result is that answer, verbatim, and no fault occurred. *)
Lemma C2_counterexample :
  "2+2?" ≠ EmptyString
  ∧ present (model sample_globals) = true
  ∧ ¬ two_shapes_as_stated sample_globals apologetic_remote "2+2?" sample_world.
Proof.
  split; [discriminate|]. split; [reflexivity|].
  intros [(text & Htext & _ & Hprefix)|(e & He & _)].
  - simpl in Htext. injection Htext as <-. vm_compute in Hprefix. discriminate.
  - simpl in He. discriminate.
Qed.

(** Read on the shape of the result alone, the sentence of C2 fails as well:
    an answer of the model can start with the literal of line 189 without
    being the failure text of any fault. *)
Lemma generate_solution_third_shape :
  ∃ r,
    (generate_solution sample_globals regretful_remote "2+2?" sample_world).1 = Done r
    ∧ Py.startswith r failure_sentinel = true
    ∧ ∀ details, r ≠ failure_text details.
Proof.
  eexists. split; [reflexivity|]. split; [reflexivity|].
  intros details. unfold failure_text. simpl. discriminate.
Qed.

(** C3 on twelve records: Next, Next, Next, Next, Previous from page 1. *)
Lemma C3_witness :
  1 ≤ page_number (session sample_world)
    ≤ Z.max 1 (total_pages_for (normalize_timestamp <$> twelve_records))
  ∧ total_pages_for (normalize_timestamp <$> twelve_records) = 3
  ∧ ∃ w',
      press_all 2 (show_history (normalize_timestamp <$> twelve_records))
        [Next; Next; Next; Next; Previous] sample_world = Some (Done tt, w')
      ∧ 1 ≤ page_number (session w') ≤ 3.
Proof.
  assert (Hp : 1 ≤ page_number (session sample_world)
                 ≤ Z.max 1 (total_pages_for (normalize_timestamp <$> twelve_records)))
    by (vm_compute; split; discriminate).
  destruct (C3_page_stays_in_range twelve_records [Next; Next; Next; Next; Previous]
              sample_world Hp) as (_ & (w' & Hrun & Hrange & _) & _).
  split; [exact Hp|]. split; [reflexivity|].
  exists w'. split; [exact Hrun|exact Hrange].
Defined.

(** C4 on twelve records at page 3, and at page 4, which is empty. *)
Lemma C4_witness :
  1 ≤ 3
  ∧ (∃ evs,
       show_history (normalize_timestamp <$> twelve_records) None
         (in_session (on_page 3 initial_session) sample_world)
       = (Done tt,
          logged (WriteText "Page 3 of 3" :: evs)
            (in_session (on_page 3 initial_session) sample_world))
       ∧ labels evs = ["**Q: k** (Asked on: 2024-05-01)";
                       "**Q: l** (Asked on: 2024-05-01)"])
  ∧ show_history (normalize_timestamp <$> twelve_records) None
      (in_session (on_page 4 initial_session) sample_world)
    = (Stop RerunException,
       logged [WriteText "Page 4 of 3"]
         (in_session (on_page 1 initial_session) sample_world)).
Proof.
  assert (H3 : 1 ≤ 3) by lia. assert (H4 : 1 ≤ 4) by lia.
  destruct (C4_page_shows_its_slice twelve_records 3 sample_world H3)
    as (_ & evs & Hevs & _ & Hrun & _).
  destruct (C4_page_shows_its_slice twelve_records 4 sample_world H4)
    as (_ & evs' & _ & _ & Hrun' & _).
  split; [exact H3|]. split.
  - exists evs. split; [exact Hrun|].
    vm_compute in Hevs. injection Hevs as <-. reflexivity.
  - exact Hrun'.
Defined.

(** C4 as stated fails on an empty history: page 3 of nothing is an empty
    slice, yet the page number stays 3 and the run ends normally. *)
Lemma C4_counterexample : 1 ≤ 3 ∧ ¬ page_slice_as_stated (datetime:=stamp) [] 3 sample_world.
Proof.
  split; [lia|]. unfold page_slice_as_stated. simpl.
  intros [_ Hreset]. destruct (Hreset eq_refl) as [Hpage _]; [lia|]. discriminate.
Qed.

(** C6 as stated fails on a record whose timestamp is null: it is handed
    over as it is, and null is not text. *)
Lemma C6_counterexample :
  ¬ timestamps_are_text_as_stated sample_globals null_timestamp_remote sample_world.
Proof.
  intros Hall.
  specialize (Hall _ _ eq_refl (sample_record "b" VNone) VNone).
  assert (is_text (VNone : value stamp) = true) as Habs; [|discriminate].
  apply Hall; [|reflexivity].
  apply list_elem_of_In. right. left. reflexivity.
Qed.

(** C7 as stated fails when no model was built: the empty question gets
    the text about the model, not the prompt to enter a question. *)
Lemma C7_counterexample :
  ¬ empty_question_as_stated no_model_globals sample_remote sample_world.
Proof. unfold empty_question_as_stated. simpl. discriminate. Qed.

(** C8 at a blank input, with the key present. *)
Lemma C8_witness :
  Py.strip "   " = EmptyString
  ∧ on_generate sample_globals sample_remote "   " sample_world =
      (Done tt, logged [Message Main LvWarning "Please enter a question."] sample_world).
Proof.
  split; [reflexivity|].
  exact (C8_blank_question_changes_nothing sample_globals sample_remote "   "
           sample_world eq_refl).
Defined.

(** C8 as stated fails when no key is configured: the blank input gets an
    error, and no warning. *)
Lemma C8_counterexample :
  ¬ blank_input_as_stated no_key_globals sample_remote EmptyString sample_world.
Proof.
  intros Hblank. destruct (Hblank eq_refl) as (w' & Hrun & Hwarn & _).
  injection Hrun as <-. simpl in Hwarn. discriminate.
Qed.

(** C9 at a model whose construction raises, with the store connected. *)
Lemma C9_witness :
  Py.truthy "k" = true
  ∧ construct_model broken_model_remote "k" = Raised "invalid model"
  ∧ Py.strip "2+2?" ≠ EmptyString
  ∧ ∃ w',
      on_generate no_model_globals broken_model_remote "2+2?" sample_world = (Done tt, w')
      ∧ current_solution (session w') = model_not_initialized
      ∧ writes (log w') = [qa_document "2+2?" model_not_initialized].
Proof.
  assert (Hq : Py.strip "2+2?" ≠ EmptyString) by (vm_compute; discriminate).
  destruct (C9_unconfigured_model_text_is_saved broken_model_remote "k" "invalid model"
              (Some FirestoreClient) (Some true) "2+2?" sample_world eq_refl eq_refl Hq)
    as (_ & _ & _ & w' & evs & Hrun & Hsession & Hlog & _ & _ & Hwrites).
  split; [reflexivity|]. split; [reflexivity|]. split; [exact Hq|].
  exists w'. split; [exact Hrun|]. split; [by rewrite Hsession|].
  rewrite Hlog. exact (Hwrites eq_refl).
Defined.

(** C10 at a successful save, starting with all three tables filled. *)
Lemma C10_witness :
  truthy_key (GEMINI_API_KEY sample_globals) = true
  ∧ Py.strip "2+2?" ≠ EmptyString
  ∧ store_uninitialized sample_globals = false
  ∧ ∃ w',
      on_generate sample_globals sample_remote "2+2?" warm_world = (Done tt, w')
      ∧ caches w' =
          {| resource_init_firebase := Some (Some FirestoreClient, Some true);
             data_get_gemini_api_key := None;
             data_get_past_qa_from_firestore := None |}.
Proof.
  assert (Hq : Py.strip "2+2?" ≠ EmptyString) by (vm_compute; discriminate).
  assert (Hs : "x = 2" ≠ EmptyString) by discriminate.
  destruct (C10_clear_empties_every_data_cache sample_globals sample_remote "2+2?"
              warm_world "x = 2"
              (logged [GenerateContent (prompt_for "2+2?")] warm_world)
              eq_refl Hq eq_refl Hs eq_refl eq_refl eq_refl)
    as (w' & Hrun & _ & Hqa & Hkey & Hres & _).
  split; [reflexivity|]. split; [exact Hq|]. split; [reflexivity|].
  exists w'. split; [exact Hrun|].
  destruct w' as [s' [r' k' q'] l']. simpl in *. by rewrite Hqa, Hkey, Hres.
Defined.

(** ** Closed instances of the further properties *)

(** X2 with and without an unreadable local file next to the secrets. *)
Lemma X2_witness :
  apps_initialized secrets_setup = false
  ∧ secrets_firebase_credentials secrets_setup = Returned true
  ∧ init_firebase secrets_setup sample_world
    = init_firebase secrets_and_bad_file_setup sample_world
  ∧ (init_firebase secrets_and_bad_file_setup sample_world).1
    = Done (Some FirestoreClient, Some true).
Proof.
  split; [reflexivity|]. split; [reflexivity|]. split; [|reflexivity].
  exact (X2_secrets_before_file secrets_setup secrets_and_bad_file_setup sample_world
           eq_refl eq_refl eq_refl eq_refl eq_refl eq_refl eq_refl).
Defined.

(** X3 at an app that exists, with and without credentials around. *)
Lemma X3_witness :
  apps_initialized running_app_setup = true
  ∧ init_firebase running_app_setup sample_world
    = (Done (Some FirestoreClient, Some true), sample_world)
  ∧ init_firebase running_app_setup sample_world
    = init_firebase running_app_with_secrets_setup sample_world.
Proof.
  destruct (X3_existing_app_skips_credentials running_app_setup
              running_app_with_secrets_setup sample_world eq_refl eq_refl eq_refl)
    as [Hsame Hresult].
  split; [reflexivity|]. split; [exact Hresult|exact Hsame].
Defined.

(** X4: a first call that finds no credentials, then a call when they are
    there. *)
Lemma X4_witness :
  resource_init_firebase (caches sample_world) = None
  ∧ ∃ w1,
      init_firebase_cached (init_firebase bare_setup) sample_world
        = (Done (None, None), w1)
      ∧ (init_firebase_cached (init_firebase secrets_setup) w1).1 = Done (None, None).
Proof.
  split; [reflexivity|].
  destruct (X4_init_firebase_result_is_kept bare_setup secrets_setup sample_world eq_refl)
    as (pair & w1 & Hrun & Hbody & Hslot & Hkept).
  assert (pair = (None, None)) as ->.
  { vm_compute in Hbody. by injection Hbody as <-. }
  exists w1. split; [exact Hrun|].
  destruct (Hkept w1 Hslot) as (w3 & Hagain & _). by rewrite Hagain.
Defined.

(** X6 at a question answered while no store is there. *)
Lemma X6_witness :
  truthy_key (GEMINI_API_KEY offline_globals) = true
  ∧ Py.strip "2+2?" ≠ EmptyString
  ∧ truthy_flag (firebase_initialized offline_globals) = false
  ∧ writes (log (on_generate offline_globals sample_remote "2+2?" sample_world).2) = []
  ∧ current_solution
      (session (on_generate offline_globals sample_remote "2+2?" sample_world).2)
    = "x = 2".
Proof.
  assert (Hq : Py.strip "2+2?" ≠ EmptyString) by (vm_compute; discriminate).
  assert (Hs : "x = 2" ≠ EmptyString) by discriminate.
  destruct (X6_solution_without_store offline_globals sample_remote "2+2?" sample_world
              "x = 2" (logged [GenerateContent (prompt_for "2+2?")] sample_world)
              eq_refl Hq eq_refl Hs eq_refl eq_refl) as [Hrun _].
  split; [reflexivity|]. split; [exact Hq|]. split; [reflexivity|].
  rewrite Hrun. split; reflexivity.
Defined.

(** X7 at a store that refuses the write, with all tables filled. *)
Lemma X7_witness :
  truthy_key (GEMINI_API_KEY sample_globals) = true
  ∧ Py.strip "2+2?" ≠ EmptyString
  ∧ store_uninitialized sample_globals = false
  ∧ collection_add read_only_remote (qa_document "2+2?" "x = 2") = Raised "permission denied"
  ∧ caches (on_generate sample_globals read_only_remote "2+2?" warm_world).2
    = caches warm_world
  ∧ messages LvError (log (on_generate sample_globals read_only_remote "2+2?" warm_world).2)
    = ["Error saving to Firestore: permission denied";
       "Failed to save question and solution to history."].
Proof.
  assert (Hq : Py.strip "2+2?" ≠ EmptyString) by (vm_compute; discriminate).
  assert (Hs : "x = 2" ≠ EmptyString) by discriminate.
  pose proof (X7_save_fault_keeps_caches sample_globals read_only_remote "2+2?" warm_world
                "x = 2" (logged [GenerateContent (prompt_for "2+2?")] warm_world)
                "permission denied" eq_refl Hq eq_refl Hs eq_refl eq_refl eq_refl) as Hrun.
  split; [reflexivity|]. split; [exact Hq|]. split; [reflexivity|].
  split; [reflexivity|]. rewrite Hrun. split; reflexivity.
Defined.

(** X8 at a model that answers with nothing. *)
Lemma X8_witness :
  truthy_key (GEMINI_API_KEY sample_globals) = true
  ∧ Py.strip "2+2?" ≠ EmptyString
  ∧ present (model sample_globals) = true
  ∧ generate_content silent_remote (prompt_for "2+2?") = Returned EmptyString
  ∧ messages LvError (log (on_generate sample_globals silent_remote "2+2?" sample_world).2)
    = ["Solution generation failed. Not saved to history."]
  ∧ writes (log (on_generate sample_globals silent_remote "2+2?" sample_world).2) = [].
Proof.
  assert (Hq : Py.strip "2+2?" ≠ EmptyString) by (vm_compute; discriminate).
  pose proof (X8_empty_answer_is_a_failure sample_globals silent_remote "2+2?" sample_world
                eq_refl Hq eq_refl eq_refl) as Hrun.
  split; [reflexivity|]. split; [exact Hq|]. split; [reflexivity|].
  split; [reflexivity|]. rewrite Hrun. split; reflexivity.
Defined.

(** X9: twelve records are read once; a later call against an empty
    collection still gives the twelve. *)
Lemma X9_witness :
  data_get_past_qa_from_firestore (caches sample_world) = None
  ∧ ∃ w1,
      get_past_qa_from_firestore_cached sample_globals twelve_remote sample_world
        = (Done (normalize_timestamp <$> twelve_records), w1)
      ∧ (get_past_qa_from_firestore_cached sample_globals sample_remote w1).1
        = Done (normalize_timestamp <$> twelve_records).
Proof.
  split; [reflexivity|].
  destruct (X9_history_list_is_cached sample_globals twelve_remote sample_remote
              sample_world eq_refl)
    as (past_qas & w1 & Hrun & Hbody & _ & Hslot & Hhit & _).
  assert (Heq : Done (normalize_timestamp <$> twelve_records) = Done past_qas)
    by exact Hbody.
  injection Heq as <-.
  exists w1. split; [exact Hrun|].
  destruct (Hhit w1 Hslot) as (w3 & Hagain & _). by rewrite Hagain.
Defined.

(** X11 at a record stamped on the first of May. *)
Lemma X11_witness :
  sample_record "a" (VDatetime may_day) !! "timestamp" = Some (VDatetime may_day)
  ∧ show_qa (sample_record "a" (VDatetime may_day)) sample_world
    = (Stop TypeError, sample_world)
  ∧ asked_on (normalize_timestamp (sample_record "a" (VDatetime may_day)))
    = Some "2024-05-01".
Proof.
  assert (Hts : sample_record "a" (VDatetime may_day) !! "timestamp"
                = Some (VDatetime may_day)) by reflexivity.
  destruct (X11_native_instant_cannot_be_shown (sample_record "a" (VDatetime may_day))
              may_day sample_world Hts) as (Hraise & Hdate & _).
  split; [exact Hts|]. split; [exact Hraise|]. rewrite Hdate. reflexivity.
Defined.

(** X13 on twelve records, from page 1. *)
Lemma X13_witness :
  1 ≤ page_number (session sample_world)
    ≤ Z.max 1 (total_pages_for (normalize_timestamp <$> twelve_records))
  ∧ (∃ w',
       press_all 2 (show_history (normalize_timestamp <$> twelve_records))
         [Next; Previous] sample_world = Some (Done tt, w')
       ∧ page_number (session w') = 1)
  ∧ (∃ w',
       press_all 2 (show_history (normalize_timestamp <$> twelve_records))
         [Previous; Next] sample_world = Some (Done tt, w')
       ∧ page_number (session w') = 2).
Proof.
  assert (Hp : 1 ≤ page_number (session sample_world)
                 ≤ Z.max 1 (total_pages_for (normalize_timestamp <$> twelve_records)))
    by (vm_compute; split; discriminate).
  destruct (X13_next_previous_round_trip twelve_records sample_world Hp)
    as [(w1 & Hrun1 & Hp1) (w2 & Hrun2 & Hp2)].
  split; [exact Hp|]. split.
  - exists w1. split; [exact Hrun1|]. rewrite Hp1. reflexivity.
  - exists w2. split; [exact Hrun2|]. rewrite Hp2. reflexivity.
Defined.

(** X14 on twelve records, from page 7. *)
Lemma X14_witness :
  1 ≤ page_number (session page_seven_world)
  ∧ ∃ w',
      run_to_end 2 (show_history (normalize_timestamp <$> twelve_records)) None
        page_seven_world = Some (Done tt, w')
      ∧ page_number (session w') = 1.
Proof.
  assert (Hp : 1 ≤ page_number (session page_seven_world)) by (vm_compute; discriminate).
  destruct (X14_page_number_corrects_itself
              (sample_record "a" (VDatetime may_day))
              ((λ q, sample_record q (VDatetime may_day))
                 <$> ["b"; "c"; "d"; "e"; "f"; "g"; "h"; "i"; "j"; "k"; "l"])
              None page_seven_world Hp) as (w' & Hrun & Hpage & _).
  split; [exact Hp|]. exists w'. split; [exact Hrun|].
  rewrite Hpage. reflexivity.
Defined.



(** X21 at a question. *)
Lemma X21_witness : prompt_for "2+2?" = prompt_for "2+2?" ∧ "2+2?" = "2+2?".
Proof.
  split; [reflexivity|].
  exact (X21_prompt_determines_question "2+2?" "2+2?" eq_refl).
Defined.

(** X22 at a generation that fails: the failure text is what is shown. *)
Lemma X22_witness :
  truthy_key (GEMINI_API_KEY sample_globals) = true
  ∧ Py.strip "2+2?" ≠ EmptyString
  ∧ ∃ wa,
      on_generate sample_globals failing_remote "2+2?" sample_world = (Done tt, wa)
      ∧ show_current_solution wa =
          (Done tt,
           logged [Markdown (VStr "**Question:** 2+2?");
                   Markdown (VStr "**Answer:**");
                   Markdown (VStr (failure_text "quota exceeded"))] wa).
Proof.
  assert (Hq : Py.strip "2+2?" ≠ EmptyString) by (vm_compute; discriminate).
  destruct (X22_generated_is_shown sample_globals failing_remote "2+2?" sample_world
              (failure_text "quota exceeded")
              (logged [GenerateContent (prompt_for "2+2?");
                       Message Main LvError
                         ("Error generating solution with Gemini: " +:+ "quota exceeded")]
                 sample_world)
              eq_refl Hq eq_refl) as (wa & Hrun & Hshow).
  split; [reflexivity|]. split; [exact Hq|]. exists wa. split; [exact Hrun|exact Hshow].
Defined.

(** X23 at an input of blanks and at an input with blanks around it. *)
Lemma X23_witness :
  truthy_key (GEMINI_API_KEY sample_globals) = true
  ∧ on_generate sample_globals sample_remote "   " sample_world
    = (Done tt, logged [Message Main LvWarning "Please enter a question."] sample_world)
  ∧ ∃ w',
      on_generate sample_globals sample_remote " 2+2? " sample_world = (Done tt, w')
      ∧ current_question (session w') = " 2+2? ".
Proof.
  destruct (X23_generation_needs_a_visible_character sample_globals sample_remote "   "
              sample_world eq_refl) as [Hblank _].
  destruct (X23_generation_needs_a_visible_character sample_globals sample_remote " 2+2? "
              sample_world eq_refl) as [_ Hvisible].
  split; [reflexivity|]. split.
  - apply Hblank. repeat constructor.
  - destruct Hvisible as (w' & Hrun & Hquestion & _).
    + intros Hall. inversion Hall as [|? ? _ Hrest]. inversion Hrest as [|? ? Hc _].
      vm_compute in Hc. discriminate.
    + exists w'. split; [exact Hrun|exact Hquestion].
Defined.
